(** * nuts-ml: the network wrapper and its pipeline adapters

  A shallow embedding of [nutsml/network.py] (the [Network] base class, the
  Lasagne and Keras wrappers, [TrainValNut], [PredictNut], [EvalNut]) and of
  the dataset splitter exercised by [tests/nutsml/test_common.py].

  Python objects are records, exceptions are a sum type, methods are
  functions in a state-and-exception monad over the receiver and the
  surrounding framework (weight files, model parameters, console). *)

From Stdlib Require Import ZArith List Bool Lia QArith Permutation.
From Stdlib Require Import Floats.SpecFloat Ascii.
From stdpp Require Import base gmap strings list pretty.

Local Open Scope string_scope.
Local Open Scope list_scope.
Local Open Scope Z_scope.

(** ** Python exceptions and results *)

Module Py.

Inductive exn :=
| NotImplementedError (msg : string)
| IndexError (msg : string)
| KeyError (msg : string)
| TypeError (msg : string)
| ValueError (msg : string)
| IOError (msg : string)
| RuntimeError (msg : string).

Inductive result (A : Type) :=
| Ok (a : A)
| Raise (e : exn).
Arguments Ok {A} a.
Arguments Raise {A} e.

Definition bind {A B} (r : result A) (k : A -> result B) : result B :=
  match r with
  | Ok a => k a
  | Raise e => Raise e
  end.

Definition is_ok {A} (r : result A) : bool :=
  match r with Ok _ => true | Raise _ => false end.

Definition is_not_implemented {A} (r : result A) : bool :=
  match r with Raise (NotImplementedError _) => true | _ => false end.

(** [for x in xs: f x], collecting the results; stops at the first raise. *)
Fixpoint mapM {A B} (f : A -> result B) (xs : list A) : result (list B) :=
  match xs with
  | [] => Ok []
  | x :: xs' => bind (f x) (fun y => bind (mapM f xs') (fun ys => Ok (y :: ys)))
  end.

(** Sequence indexing [xs[i]]: a negative index counts from the end. *)
Definition index {A} (xs : list A) (i : Z) : result A :=
  let n := Z.of_nat (length xs) in
  let j := if i <? 0 then n + i else i in
  if (j <? 0) || (n <=? j) then Raise (IndexError "index out of range")
  else match nth_error xs (Z.to_nat j) with
       | Some x => Ok x
       | None => Raise (IndexError "index out of range")
       end.

(** The slice [xs[:stop]]: a negative stop counts from the end, and both
    ends are clamped, so a slice never raises. *)
Definition slice_to {A} (xs : list A) (stop : Z) : list A :=
  let n := Z.of_nat (length xs) in
  let j := if stop <? 0 then Z.max 0 (n + stop) else Z.min stop n in
  firstn (Z.to_nat j) xs.

End Py.
Import Py.

(** ** Python floats

  A score is a Python [float], an IEEE 754 binary64 value.  [save_best]
  only compares scores and tests their truth value, so the specification
  type [spec_float] with its comparison is the whole model. *)

Module PyFloat.

Definition pyfloat := spec_float.

Definition is_binary64 (x : pyfloat) : bool := valid_binary 53 1024 x.

(** [x < y] and [x > y]; both are false as soon as one side is NaN. *)
Definition lt (x y : pyfloat) : bool := SFltb x y.
Definition gt (x y : pyfloat) : bool := SFltb y x.

(** [bool(x)]: a float is falsy exactly when it is [0.0] or [-0.0]. *)
Definition truthy (x : pyfloat) : bool := negb (SFeqb x (S754_zero false)).

(** [not o] for a value that is [None] or a float. *)
Definition not_ (o : option pyfloat) : bool :=
  match o with
  | None => true
  | Some x => negb (truthy x)
  end.

(** A few literals: [m * 2^e]. *)
Definition zero : pyfloat := S754_zero false.
Definition of_pos (m : positive) (e : Z) : pyfloat := S754_finite false m e.
Definition half : pyfloat := of_pos 4503599627370496 (-53).
Definition one : pyfloat := of_pos 4503599627370496 (-52).
Definition two : pyfloat := of_pos 4503599627370496 (-51).

End PyFloat.
Import PyFloat.

(** ** numpy arrays

    An [ndarray] is a shape and its elements in row-major order.  Only the
    operations [EvalNut] uses are modelled: iteration along the first axis,
    [np.vstack] and [astype(np.float)]. *)

Module Np.

Inductive scalar :=
| NpInt (z : Z)
| NpFloat (f : pyfloat).

Record ndarray := mkArray { shape : list nat; data : list scalar }.

Definition size_of (sh : list nat) : nat := fold_right Nat.mul 1%nat sh.

Definition well_shaped (a : ndarray) : bool :=
  Nat.eqb (length (data a)) (size_of (shape a)).

Fixpoint chunks (n k : nat) (xs : list scalar) : list (list scalar) :=
  match n with
  | O => []
  | S n' => firstn k xs :: chunks n' k (skipn k xs)
  end.

(** [for row in a]: the sub-arrays along the first axis; a 0-d array cannot
    be iterated. *)
Definition iter (a : ndarray) : result (list ndarray) :=
  match shape a with
  | [] => Raise (TypeError "iteration over a 0-d array")
  | n :: sh => Ok (map (mkArray sh) (chunks n (size_of sh) (data a)))
  end.

Definition atleast_2d (a : ndarray) : ndarray :=
  match shape a with
  | [] => mkArray [1%nat; 1%nat] (data a)
  | [n] => mkArray [1%nat; n] (data a)
  | _ => a
  end.

Definition same_shape (sh1 sh2 : list nat) : bool :=
  bool_decide (sh1 = sh2).

Definition tail_matches (sh : list nat) (b : ndarray) : bool :=
  match shape b with
  | [] => false
  | _ :: sh' => same_shape sh sh'
  end.

Definition leading (a : ndarray) : nat := hd 0%nat (shape a).

(** [np.concatenate(arrs, 0)]. *)
Definition concatenate (arrs : list ndarray) : result ndarray :=
  match arrs with
  | [] => Raise (ValueError "need at least one array to concatenate")
  | a :: rest =>
      match shape a with
      | [] => Raise (ValueError "zero-dimensional arrays cannot be concatenated")
      | _ :: sh =>
          if forallb (tail_matches sh) rest
          then Ok (mkArray (list_sum (map leading arrs) :: sh)
                           (concat (map data arrs)))
          else Raise (ValueError "all the input array dimensions except for the concatenation axis must match exactly")
      end
  end.

(** [np.vstack(tup)] is [concatenate([atleast_2d(m) for m in tup], 0)]. *)
Definition vstack (tup : list ndarray) : result ndarray :=
  concatenate (map atleast_2d tup).

Definition to_float (x : scalar) : scalar :=
  match x with
  | NpInt z => NpFloat (binary_normalize 53 1024 z 0 false)
  | NpFloat f => NpFloat f
  end.

(** [a.astype(np.float)]. *)
Definition astype_float (a : ndarray) : ndarray :=
  mkArray (shape a) (map to_float (data a)).

End Np.
Import Np.

(** ** nuts-flow pipelines

    A nut is a stream transformer.  It is modelled by what it does with one
    input element: it yields a list of outputs, may raise, and may change a
    state (the model parameters, or a list captured by a closure); a raise
    keeps the changes made before it.  [f >>> g] chains two nuts and
    [Collect] drains a pipeline over its input, element by element, as the
    lazy generators of the library do. *)

Module Flow.

Inductive pyobj :=
| PArr (a : ndarray)
| PTuple (xs : list ndarray).

(** [for e in x]. *)
Definition iterate (x : pyobj) : result (list ndarray) :=
  match x with
  | PArr a => Np.iter a
  | PTuple xs => Ok xs
  end.

(** [x[i]]. *)
Definition getitem (x : pyobj) (i : Z) : result pyobj :=
  match x with
  | PArr a =>
      match Np.iter a with
      | Raise _ => Raise (IndexError "too many indices for array")
      | Ok rows => bind (index rows i) (fun r => Ok (PArr r))
      end
  | PTuple xs => bind (index xs i) (fun a => Ok (PArr a))
  end.

Definition stage (S A B : Type) := A -> S -> result (list B) * S.

Fixpoint feed {S A B} (f : stage S A B) (xs : list A) (s : S)
  : result (list B) * S :=
  match xs with
  | [] => (Ok [], s)
  | x :: xs' =>
      match f x s with
      | (Raise e, s1) => (Raise e, s1)
      | (Ok ys, s1) =>
          match feed f xs' s1 with
          | (Raise e, s2) => (Raise e, s2)
          | (Ok zs, s2) => (Ok (ys ++ zs), s2)
          end
      end
  end.

Definition pipe {S A B C} (f : stage S A B) (g : stage S B C) : stage S A C :=
  fun a s =>
    match f a s with
    | (Raise e, s1) => (Raise e, s1)
    | (Ok bs, s1) => feed g bs s1
    end.

Infix ">>>" := pipe (at level 61, left associativity).

(** A nut that works on one half of a pair of states. *)
Definition on_fst {S T A B} (f : stage S A B) : stage (S * T) A B :=
  fun a st => let (r, s') := f a (fst st) in (r, (s', snd st)).

Definition on_snd {S T A B} (f : stage T A B) : stage (S * T) A B :=
  fun a st => let (r, t') := f a (snd st) in (r, (fst st, t')).

Definition pure_stage {S A B} (f : A -> result (list B)) : stage S A B :=
  fun a s => (f a, s).

(** [Map(func)], for a function that may update a state. *)
Definition Map {S A B} (func : A -> S -> result B * S) : stage S A B :=
  fun a s => let (r, s') := func a s in (bind r (fun b => Ok [b]), s').

(** [Get(start)]: the element itself when [start] is [None], else
    [x[start]]. *)
Definition Get {S} (start : option Z) : stage S pyobj pyobj :=
  pure_stage (fun x =>
    match start with
    | None => Ok [x]
    | Some i => bind (getitem x i) (fun y => Ok [y])
    end).

(** [Flatten()]: one level. *)
Definition Flatten {S} : stage S pyobj ndarray := pure_stage iterate.

(** [iterable >> nut >> Collect()]. *)
Definition Collect {S A B} (nut : stage S A B) (iterable : list A) (s : S)
  : result (list B) * S :=
  feed nut iterable s.

End Flow.
Import Flow.

(** ** The network wrappers *)

Module Net.

(** *** The wrapped framework

    The model behind a wrapper is a chain of weight layers, output layer
    first; weight files map parameter names to arrays.  [can_write] tells
    whether a file of a given name can be created or replaced (its directory
    exists and may be written to).  [save_calls] is a ghost counter of the
    calls to [save_weights]. *)

Record layer := mkLayer { class_name : string; get_params : list ndarray }.

Record world := mkWorld {
  layers : list layer;
  files : gmap string (gmap string ndarray);
  stdout : list string;
  save_calls : nat;
  can_write : string -> bool
}.

Definition set_layers (ls : list layer) (w : world) : world :=
  mkWorld ls (files w) (stdout w) (save_calls w) (can_write w).

Definition write_file (path : string) (content : gmap string ndarray)
  (w : world) : world :=
  mkWorld (layers w) (<[path := content]> (files w)) (stdout w) (save_calls w)
          (can_write w).

Definition print (line : string) (w : world) : world :=
  mkWorld (layers w) (files w) (stdout w ++ [line]) (save_calls w)
          (can_write w).

Definition count_save (w : world) : world :=
  mkWorld (layers w) (files w) (stdout w) (S (save_calls w)) (can_write w).

(** The counter is a ghost: a call into the framework leaves it as it was
    [before] the call. *)
Definition same_count (before after : world) : world :=
  mkWorld (layers after) (files after) (stdout after) (save_calls before)
          (can_write after).

(** A framework function applied to the columns of a batch. *)
Definition batchfn := list ndarray -> world -> result pyobj * world.

(** A method of the Keras model that reads or writes a file, or prints. *)
Definition filefn := string -> world -> result unit * world.
Definition printfn := world -> result unit * world.

(** The Keras model, by the methods the wrapper calls: what they do is the
    framework's business. *)
Record keras_model := mkModel {
  train_on_batch : batchfn;
  test_on_batch : batchfn;
  predict_on_batch : batchfn;
  model_save_weights : filefn;
  model_load_weights : filefn;
  model_summary : printfn
}.

(** [K.variable], [eval] and [np.mean] of the Keras backend, as one map from
    an evaluated metric tensor to its mean. *)
Record backend := mkBackend { mean : ndarray -> pyfloat }.

(** *** The classes *)

Inductive netclass :=
| Base
| LasagneNetwork (train_fn val_fn pred_fn : batchfn)
| KerasNetwork (model : keras_model) (K : backend).

Record Network := mkNetwork {
  filepath : string;
  best_score : option pyfloat;
  cls : netclass
}.

Definition Network_init (weightspath : string) (c : netclass) : Network :=
  {| filepath := weightspath; best_score := None; cls := c |}.

Definition LasagneNetwork_init (train_fn val_fn pred_fn : batchfn)
  (weightspath : option string) : Network :=
  Network_init (default "weights_lasagne_net.npz" weightspath)
               (LasagneNetwork train_fn val_fn pred_fn).

Definition KerasNetwork_init (model : keras_model) (K : backend)
  (weightspath : option string) : Network :=
  Network_init (default "weights_keras_net.hd5" weightspath)
               (KerasNetwork model K).

Definition set_best_score (score : pyfloat) (self : Network) : Network :=
  {| filepath := filepath self; best_score := Some score; cls := cls self |}.

(** A method runs on the receiver and the framework; it returns a value or
    raises, and hands both back. *)
Definition M (A : Type) := Network -> world -> result A * Network * world.

Definition ret {A} (a : A) : M A := fun self w => (Ok a, self, w).
Definition raise {A} (e : exn) : M A := fun self w => (Raise e, self, w).
Definition mbind {A B} (m : M A) (k : A -> M B) : M B :=
  fun self w =>
    match m self w with
    | (Ok a, self', w') => k a self' w'
    | (Raise e, self', w') => (Raise e, self', w')
    end.
Definition get_self : M Network := fun self w => (Ok self, self, w).
Definition put_self (n : Network) : M unit := fun _ w => (Ok tt, n, w).
Definition get_world : M world := fun self w => (Ok w, self, w).
Definition put_world (w : world) : M unit := fun self _ => (Ok tt, self, w).

Notation "x <- m ;; k" := (mbind m (fun x => k))
  (at level 100, m at next level, right associativity).
Notation "m ;;; k" := (mbind m (fun _ => k))
  (at level 100, right associativity).

Definition returned {A} (o : result A * Network * world) : result A := o.1.1.
Definition net_after {A} (o : result A * Network * world) : Network := o.1.2.
Definition world_after {A} (o : result A * Network * world) : world := o.2.

(** *** Pipeline adapters *)

Definition batch := list ndarray.

(** [for batch in batches: yield func( *batch, **kwargs)].  The keyword
    arguments are handed through unchanged; [func] stands for the function
    together with them. *)
Definition TrainValNut (func : batchfn) : stage world batch pyobj :=
  Map func.

Definition PredictNut (func : batchfn) (flatten : bool)
  : stage world batch pyobj :=
  fun b w =>
    match func b w with
    | (Raise e, w') => (Raise e, w')
    | (Ok pred_batch, w') =>
        if flatten
        then (bind (iterate pred_batch) (fun ps => Ok (map PArr ps)), w')
        else (Ok [pred_batch], w')
    end.

(** *** Methods of [Network], [LasagneNetwork] and [KerasNetwork] *)

Definition train : M (stage world batch pyobj) :=
  self <- get_self ;;
  match cls self with
  | Base => raise (NotImplementedError "Implement train()!")
  | LasagneNetwork train_fn _ _ => ret (TrainValNut train_fn)
  | KerasNetwork model _ => ret (TrainValNut (train_on_batch model))
  end.

Definition validate : M (stage world batch pyobj) :=
  self <- get_self ;;
  match cls self with
  | Base => raise (NotImplementedError "Implement validate()!")
  | LasagneNetwork _ val_fn _ => ret (TrainValNut val_fn)
  | KerasNetwork model _ => ret (TrainValNut (test_on_batch model))
  end.

Definition predict (flatten : bool) : M (stage world batch pyobj) :=
  self <- get_self ;;
  match cls self with
  | Base => raise (NotImplementedError "Implement predict()!")
  | LasagneNetwork _ _ pred_fn => ret (PredictNut pred_fn flatten)
  | KerasNetwork model _ => ret (PredictNut (predict_on_batch model) flatten)
  end.

(** *** [EvalNut] *)

Inductive evalout (value : Type) :=
| One (v : value)
| Many (vs : list value).
Arguments One {value} v.
Arguments Many {value} vs.

(** The closure [accumulate] of [EvalNut]; [targets] is the list it
    captures and extends. *)
Definition accumulate (targetcol : Z) (b : batch) (targets : list ndarray)
  : result batch * list ndarray :=
  let p_batch := slice_to b targetcol in
  match index b targetcol with
  | Raise e => (Raise e, targets)
  | Ok target =>
      match Np.iter target with
      | Raise e => (Raise e, targets)
      | Ok rows => (Ok p_batch, targets ++ rows)
      end
  end.

Section Eval.

Context {metric value : Type}.

(** One application of [compute]: the metric and the two arrays it got. *)
Definition call := (metric * ndarray * ndarray)%type.

(** [tuple(compute(m, targets, preds) for m in metrics)], with the calls it
    makes; the first raise ends it. *)
Fixpoint compute_each (compute : metric -> ndarray -> ndarray -> result value)
  (targets preds : ndarray) (metrics : list metric)
  : list call * result (list value) :=
  match metrics with
  | [] => ([], Ok [])
  | m :: ms =>
      match compute m targets preds with
      | Raise e => ([(m, targets, preds)], Raise e)
      | Ok v =>
          let (calls, r) := compute_each compute targets preds ms in
          ((m, targets, preds) :: calls, bind r (fun vs => Ok (v :: vs)))
      end
  end.

Definition EvalNut (batches : list batch) (network : Network)
  (metrics : list metric)
  (compute : metric -> ndarray -> ndarray -> result value)
  (predcol : option Z) (targetcol : Z) (w : world)
  : list call * (result (evalout value) * Network * world) :=
  match predict false network w with
  | (Raise e, network, w) => ([], (Raise e, network, w))
  | (Ok predict_nut, network, w) =>
      let nut := on_fst (Map (accumulate targetcol)) >>> on_snd predict_nut
                 >>> Get predcol >>> Flatten in
      match Collect nut batches ([], w) with
      | (Raise e, (_, w)) => ([], (Raise e, network, w))
      | (Ok preds, (targets, w)) =>
          match vstack targets with
          | Raise e => ([], (Raise e, network, w))
          | Ok targets =>
              match vstack preds with
              | Raise e => ([], (Raise e, network, w))
              | Ok preds =>
                  let targets := astype_float targets in
                  let (calls, r) := compute_each compute targets preds metrics in
                  (calls,
                   (bind r (fun results =>
                      if (1 <? length results)%nat then Ok (Many results)
                      else bind (index results 0) (fun v => Ok (One v))),
                    network, w))
              end
          end
      end
  end.

End Eval.

Definition metric_fn := ndarray -> ndarray -> result ndarray.

Definition sink :=
  list batch -> Network -> world ->
  list (@call metric_fn) * (result (evalout ndarray) * Network * world).

Definition is_vector (a : ndarray) : bool :=
  match shape a with [] => false | _ => true end.

Definition float_ (a : ndarray) : scalar :=
  match data a with
  | x :: _ => to_float x
  | [] => NpFloat S754_nan
  end.

Definition lasagne_compute (metric : metric_fn) (targets preds : ndarray)
  : result ndarray :=
  metric targets preds.

Definition keras_compute (K : backend) (metric : metric_fn)
  (targets preds : ndarray) : result ndarray :=
  bind (metric targets preds) (fun r =>
    Ok (mkArray [] [if is_vector r then NpFloat (mean K r) else float_ r])).

Definition evaluate (metrics : list metric_fn) (predcol : option Z)
  (targetcol : Z) : M sink :=
  self <- get_self ;;
  match cls self with
  | Base => raise (NotImplementedError "Implement evaluate()!")
  | LasagneNetwork _ _ _ =>
      ret (fun batches network =>
             EvalNut batches network metrics lasagne_compute predcol targetcol)
  | KerasNetwork _ K =>
      ret (fun batches network =>
             EvalNut batches network metrics (keras_compute K) predcol targetcol)
  end.

(** *** Weight files *)

(** [LasagneNetwork._weight_layers]: the layers with weights, from the output
    layer down; the input layer is not among them. *)
Definition _weight_layers (w : world) : list layer := layers w.

(** A parameter is a shared variable of the framework, found by the number
    of its layer and its number in the layer. *)
Definition param := (nat * nat)%type.

Definition get_value (p : param) (ls : list layer) : option ndarray :=
  ly ← ls !! p.1; get_params ly !! p.2.

Definition set_value (p : param) (v : ndarray) (ls : list layer) : list layer :=
  alter (fun ly => mkLayer (class_name ly) (<[p.2 := v]> (get_params ly))) p.1 ls.

(** [LasagneNetwork._get_named_params]: names ['{}_{}'.format(l_num, p_num)]
    paired with the parameters. *)
Definition _get_named_params (ls : list layer) : list (string * param) :=
  mjoin (imap (fun l_num ly =>
                 imap (fun p_num _ =>
                         (pretty l_num +:+ "_" +:+ pretty p_num, (l_num, p_num)))
                      (get_params ly)) ls).

(** [{name: p.get_value() for name, p in ...}]. *)
Definition named_values (ls : list layer) : gmap string ndarray :=
  foldl (fun d np =>
           match get_value np.2 ls with
           | Some v => <[np.1 := v]> d
           | None => d
           end) ∅ (_get_named_params ls).

Definition endswith (s suffix : string) : bool :=
  String.prefix (String.rev suffix) (String.rev s).

(** The name [np.savez_compressed] writes to: the archive gets the
    extension [.npz] unless the name has it. *)
Definition npz_name (file : string) : string :=
  if endswith file ".npz" then file else file +:+ ".npz".

(** [np.savez_compressed(file, **weights)]; it raises and writes nothing
    where the file cannot be created. *)
Definition savez_compressed (file : string) (weights : gmap string ndarray)
  : M unit :=
  w <- get_world ;;
  if can_write w (npz_name file)
  then put_world (write_file (npz_name file) weights w)
  else raise (IOError "No such file or directory").

(** A call of a method of the Keras model; its outcome is the outcome of the
    wrapper's method. *)
Definition call_model (f : world -> result unit * world) : M unit :=
  w <- get_world ;;
  let (r, w') := f w in
  put_world (same_count w w') ;;;
  match r with
  | Ok _ => ret tt
  | Raise e => raise e
  end.

(** [for name, param in ...: param.set_value(weights[name])]. *)
Fixpoint set_values (weights : gmap string ndarray)
  (named : list (string * param)) (ls : list layer)
  : result unit * list layer :=
  match named with
  | [] => (Ok tt, ls)
  | (name, p) :: rest =>
      match weights !! name with
      | None => (Raise (KeyError name), ls)
      | Some v => set_values weights rest (set_value p v ls)
      end
  end.

(** [np.load(path)] and the loop that sets the parameters from it. *)
Definition read_weights (path : string) : M unit :=
  self <- get_self ;;
  w <- get_world ;;
  match files w !! path with
  | None => raise (IOError "No such file or directory")
  | Some weights =>
      let (r, ls) := set_values weights (_get_named_params (layers w)) (layers w) in
      put_world (set_layers ls w) ;;;
      match r with
      | Ok _ => ret tt
      | Raise e => raise e
      end
  end.

Definition save_weights : M unit :=
  self <- get_self ;;
  w <- get_world ;;
  put_world (count_save w) ;;;
  match cls self with
  | Base => raise (NotImplementedError "Implement save_weights()!")
  | LasagneNetwork _ _ _ =>
      w <- get_world ;;
      savez_compressed (filepath self) (named_values (layers w))
  | KerasNetwork model _ =>
      call_model (model_save_weights model (filepath self))
  end.

Definition load_weights : M unit :=
  self <- get_self ;;
  match cls self with
  | Base => raise (NotImplementedError "Implement load_weights()!")
  | LasagneNetwork _ _ _ => read_weights (filepath self)
  | KerasNetwork model _ =>
      call_model (model_load_weights model (filepath self))
  end.

Definition rule : string := String.concat EmptyString (replicate 80%nat "_").

Definition print_layers : M unit :=
  self <- get_self ;;
  w <- get_world ;;
  match cls self with
  | Base => raise (NotImplementedError "Implement print_layers()!")
  | LasagneNetwork _ _ _ =>
      put_world (foldl (fun w ly => print (class_name ly) (print rule w))
                       w (_weight_layers w))
  | KerasNetwork model _ => call_model (model_summary model)
  end.

(** *** [save_best] *)

(** The condition of [save_best].  [or] stops at the first true operand, so
    the comparisons are only made against a best score that is set. *)
Definition is_better (best : option pyfloat) (score : pyfloat) (isloss : bool)
  : bool :=
  not_ best
  || match best with
     | None => false
     | Some b =>
         (Bool.eqb isloss true && lt score b)
         || (Bool.eqb isloss false && gt score b)
     end.

Definition save_best (score : pyfloat) (isloss : bool) : M unit :=
  self <- get_self ;;
  if is_better (best_score self) score isloss
  then put_self (set_best_score score self) ;;; save_weights
  else ret tt.

(** A caller that reports one score after the other, as a training loop
    does once per epoch. *)
Fixpoint save_best_each (scores : list pyfloat) (isloss : bool)
  (self : Network) (w : world) : Network * world :=
  match scores with
  | [] => (self, w)
  | score :: rest =>
      let '(_, self', w') := save_best score isloss self w in
      save_best_each rest isloss self' w'
  end.

(** *** What [EvalNut] is meant to stack

    The specification's reading of the pipeline, as two separate passes over
    the batches: the rows of all target columns, and the rows of all
    predictions. *)

(** The prediction function behind [predict], for the two wrappers. *)
Definition pred_func (network : Network) : option batchfn :=
  match cls network with
  | Base => None
  | LasagneNetwork _ _ pred_fn => Some pred_fn
  | KerasNetwork model _ => Some (predict_on_batch model)
  end.

Definition batch_targets (targetcol : Z) (b : batch) : result (list ndarray) :=
  bind (index b targetcol) Np.iter.

Definition all_targets (targetcol : Z) (batches : list batch)
  : result (list ndarray) :=
  bind (mapM (batch_targets targetcol) batches) (fun rows => Ok (concat rows)).

Definition prediction_rows (predcol : option Z) (pred_batch : pyobj)
  : result (list ndarray) :=
  match predcol with
  | None => iterate pred_batch
  | Some i => bind (getitem pred_batch i) iterate
  end.

Fixpoint all_predictions (func : batchfn) (predcol : option Z) (targetcol : Z)
  (batches : list batch) (w : world) : result (list ndarray) * world :=
  match batches with
  | [] => (Ok [], w)
  | b :: rest =>
      match func (slice_to b targetcol) w with
      | (Raise e, w') => (Raise e, w')
      | (Ok pred_batch, w') =>
          match prediction_rows predcol pred_batch with
          | Raise e => (Raise e, w')
          | Ok rows =>
              match all_predictions func predcol targetcol rest w' with
              | (Raise e, w'') => (Raise e, w'')
              | (Ok more, w'') => (Ok (rows ++ more), w'')
              end
          end
      end
  end.

(** A batch whose last column is [target], after the columns [inputs]. *)
Definition with_target (columns : batch * ndarray) : batch :=
  columns.1 ++ [columns.2].

(** The rows of the predictions when the prediction function is applied to
    each of the given inputs in turn. *)
Fixpoint predictions_over (func : batchfn) (predcol : option Z)
  (inputs : list batch) (w : world) : result (list ndarray) * world :=
  match inputs with
  | [] => (Ok [], w)
  | input :: rest =>
      match func input w with
      | (Raise e, w') => (Raise e, w')
      | (Ok pred_batch, w') =>
          match prediction_rows predcol pred_batch with
          | Raise e => (Raise e, w')
          | Ok rows =>
              match predictions_over func predcol rest w' with
              | (Raise e, w'') => (Raise e, w'')
              | (Ok more, w'') => (Ok (rows ++ more), w'')
              end
          end
      end
  end.

(** The two fields of the base class after a call are those before it. *)
Definition fields_unchanged {A} (self : Network)
  (out : result A * Network * world) : Prop :=
  filepath (net_after out) = filepath self
  /\ best_score (net_after out) = best_score self.

End Net.
Import Net.

(** ** Names and shapes of the model parameters *)

Module Params.

(** How many parameters each layer has. *)
Definition architecture (ls : list layer) : list nat :=
  map (fun ly => length (get_params ly)) ls.

(** The name [_get_named_params] gives to a parameter. *)
Definition name_of (p : param) : string :=
  pretty p.1 +:+ "_" +:+ pretty p.2.

Fixpoint underscore_free (s : string) : bool :=
  match s with
  | EmptyString => true
  | String c s' => negb (Ascii.eqb c "_"%char) && underscore_free s'
  end.

(** Is the network a Lasagne wrapper? *)
Definition is_lasagne (self : Network) : bool :=
  match cls self with
  | LasagneNetwork _ _ _ => true
  | _ => false
  end.

(** The archive that [save_weights] of a Lasagne wrapper writes. *)
Definition archive (self : Network) : string := npz_name (filepath self).

(** The rows that a nut yields, each as an object of its own. *)
Definition wrap_rows (out : result (list ndarray) * world)
  : result (list pyobj) * world :=
  (bind out.1 (fun rows => Ok (map PArr rows)), out.2).

End Params.
Import Params.

(** ** The dataset splitter

    [SplitRandom] lives in [nutsml/common.py], which is not among the
    sources; the tests in [tests/nutsml/test_common.py] call it.  Ratios are
    Python floats, and a random source is a state with the function that
    draws a number below a bound from it. *)

Module Common.

Inductive ratio_arg :=
| Single (r : pyfloat)
| Several (rs : list pyfloat).



Section Shuffle.

Context {seed : Type}.
Variable randbelow : seed -> nat -> nat * seed.
Context {B : Type}.

(** Modelled from the spec: shuffling with the seedable random source; each
    step draws the position of the next element among those left. *)
Fixpoint shuffle_go (fuel : nat) (rand : seed) (l : list B) : list B * seed :=
  match fuel with
  | O => (l, rand)
  | S fuel' =>
      match l with
      | [] => ([], rand)
      | _ :: _ =>
          let (d, rand') := randbelow rand (length l) in
          let j := (d mod length l)%nat in
          match l !! j with
          | None => (l, rand')
          | Some x =>
              let (rest, rand'') := shuffle_go fuel' rand' (delete j l) in
              (x :: rest, rand'')
          end
      end
  end.

Definition shuffle (rand : seed) (l : list B) : list B * seed :=
  shuffle_go (length l) rand l.

End Shuffle.

Section Split.

Context {seed : Type}.

(** Modelled from the spec: the sizes of the ratio-sized buckets for a
    number of samples and a ratio argument, one size per bucket and at least
    one bucket, or the error for ratios that are refused (nutsml/common.py
    is missing).  Neither the specification nor the tests say how a ratio
    times the number of samples becomes a whole number, nor how the sum of
    the ratios is compared with one, so the rule is a parameter of the
    splitter. *)
Variable bucket_sizes : nat -> ratio_arg -> result (Z * list Z).

Variable randbelow : seed -> nat -> nat * seed.
Context {A K : Type} `{EqDecision K}.

(** Modelled from the spec: grouping by the constraint; the samples with one
    key form one group, groups in the order their keys first appear. *)
Fixpoint group_insert (k : K) (x : A) (gs : list (K * list A))
  : list (K * list A) :=
  match gs with
  | [] => [(k, [x])]
  | (k', g) :: rest =>
      if decide (k = k') then (k', g ++ [x]) :: rest
      else (k', g) :: group_insert k x rest
  end.

Definition group_by (key : A -> K) (samples : list A) : list (K * list A) :=
  foldl (fun gs x => group_insert (key x) x gs) [] samples.

(** Modelled from the spec: one bucket; groups are taken whole, in order,
    until the bucket holds [n] samples. *)
Fixpoint take_groups (n : Z) (split : list A) (groups : list (list A))
  : list A * list (list A) :=
  match groups with
  | [] => (split, [])
  | g :: rest =>
      if n <=? Z.of_nat (length split) then (split, groups)
      else take_groups n (split ++ g) rest
  end.

(** Modelled from the spec: the single pass over the groups; the last bucket
    takes what is left. *)
Fixpoint fill (ns : list Z) (groups : list (list A)) : list (list A) :=
  match ns with
  | [] => []
  | n :: ns' =>
      match ns' with
      | [] => [concat groups]
      | _ :: _ =>
          let (split, rest) := take_groups n [] groups in
          split :: fill ns' rest
      end
  end.

(** Modelled from the spec: [SplitRandom] (nutsml/common.py is missing).  It
    partitions a sequence into ratio-sized buckets, keeps the samples of one
    constraint group together, and takes its randomness from the given
    source. *)
Definition SplitRandom (samples : list A) (ratio : ratio_arg)
  (constraint : option (A -> K)) (rand : seed)
  : result (list (list A)) * seed :=
  match bucket_sizes (length samples) ratio with
  | Raise e => (Raise e, rand)
  | Ok (n, ns) =>
      let groups :=
        match constraint with
        | None => map (fun s => [s]) samples
        | Some key => map snd (group_by key samples)
        end in
      let (groups, rand) := shuffle randbelow rand groups in
      (Ok (fill (n :: ns) groups), rand)
  end.

End Split.

(** *** A sizing rule and a random source for the examples

    To run the splitter on the inputs of the tests, the parameters are
    given values: the sizes [int(n * r)] computed in binary64 arithmetic,
    for ratios whose sum is one up to a millionth, and a linear congruential
    generator.  Both are examples: the theorems about [SplitRandom] hold
    for every rule and every source. *)

Definition of_Z (z : Z) : pyfloat := binary_normalize 53 1024 z 0 false.
Definition add (x y : pyfloat) : pyfloat := SFadd 53 1024 x y.
Definition sub (x y : pyfloat) : pyfloat := SFsub 53 1024 x y.
Definition mul (x y : pyfloat) : pyfloat := SFmul 53 1024 x y.
Definition div (x y : pyfloat) : pyfloat := SFdiv 53 1024 x y.

(** The float nearest to [p / q], as the literal [0.7] is the float nearest
    to [7 / 10]. *)
Definition decimal (p q : Z) : pyfloat := div (of_Z p) (of_Z q).

(** [int(x)]: the float cut off at the point; none for NaN and the
    infinities. *)
Definition int_ (x : pyfloat) : option Z :=
  match x with
  | S754_zero _ => Some 0
  | S754_finite s m e =>
      let v := if 0 <=? e then Z.pos m * 2 ^ e else Z.pos m / 2 ^ (- e) in
      Some (if s then - v else v)
  | _ => None
  end.

Definition example_ratios (ratio : ratio_arg) : result (list pyfloat) :=
  match ratio with
  | Single r => Ok [r; sub one r]
  | Several rs =>
      if SFleb (SFabs (sub (fold_left add rs zero) one)) (decimal 1 1000000)
      then Ok rs
      else Raise (ValueError "Ratios must sum up to one")
  end.

Definition example_sizes (n : nat) (ratio : ratio_arg)
  : result (Z * list Z) :=
  bind (example_ratios ratio) (fun rs =>
    bind (mapM (fun r =>
                  match int_ (mul (of_Z (Z.of_nat n)) r) with
                  | Some k => Ok k
                  | None => Raise (ValueError "cannot convert float to integer")
                  end) rs) (fun ns =>
      match ns with
      | [] => Raise (ValueError "Ratios must sum up to one")
      | k :: ks => Ok (k, ks)
      end)).

(** A linear congruential generator. *)
Definition lcg (s : N) (n : nat) : nat * N :=
  let s' := ((1103515245 * s + 12345) mod 2147483648)%N in
  (N.to_nat (s' / 65536), s').

End Common.
Import Common.

(** ** Sample objects *)

Module Sample.

Definition vec (xs : list Z) : ndarray :=
  mkArray [length xs] (map NpInt xs).

Definition matrix (rows cols : nat) (xs : list Z) : ndarray :=
  mkArray [rows; cols] (map NpInt xs).

(** A framework function that answers with its first input. *)
Definition first_input : batchfn :=
  fun b w =>
    (match b with
     | x :: _ => Ok (PArr x)
     | [] => Raise (TypeError "missing argument")
     end, w).

(** A Keras model that keeps its weights in a file as named arrays, and
    whose summary prints the class of each layer. *)
Definition save_named : filefn :=
  fun path w =>
    if can_write w path
    then (Ok tt, write_file path (named_values (layers w)) w)
    else (Raise (IOError "Unable to create file"), w).

Definition load_named : filefn :=
  fun path w =>
    match files w !! path with
    | None => (Raise (IOError "Unable to open file"), w)
    | Some weights =>
        let (r, ls) :=
          set_values weights (_get_named_params (layers w)) (layers w) in
        (r, set_layers ls w)
    end.

Definition summary : printfn :=
  fun w => (Ok tt, foldl (fun w ly => print (class_name ly) w) w (layers w)).

Definition model : keras_model :=
  mkModel first_input first_input first_input save_named load_named summary.

Definition K : backend := mkBackend (fun _ => zero).

Definition keras_net : Network := KerasNetwork_init model K None.

Definition base_net : Network := Network_init "weights.npz" Base.

Definition lasagne_net : Network :=
  LasagneNetwork_init first_input first_input first_input None.

(** One dense layer with one parameter, no file yet, every file writable. *)
Definition w0 : world :=
  mkWorld [mkLayer "Dense" [vec [1; 2]]] ∅ [] 0 (fun _ => true).

(** The model with other values, beside an archive of the values of [w0]. *)
Definition w_saved : world :=
  mkWorld [mkLayer "Dense" [vec [7; 8]]]
          {[ "weights_lasagne_net.npz" := {[ "0_0" := vec [1; 2] ]} ]}
          [] 0 (fun _ => true).

(** The same, where no file can be written. *)
Definition w_readonly : world :=
  mkWorld [mkLayer "Dense" [vec [1; 2]]] ∅ [] 0 (fun _ => false).

(** A batch of two samples: features and targets. *)
Definition batch0 : batch := [matrix 2 2 [1; 2; 3; 4]; matrix 2 1 [0; 1]].

(** Metrics named by numbers, and a [compute] that answers with the name. *)
Definition name_of (m : nat) (targets preds : ndarray) : result nat := Ok m.

(** The rows of [batch0]: its targets, and what [first_input] predicts. *)
Definition target_rows0 : list ndarray := [vec [0]; vec [1]].
Definition prediction_rows0 : list ndarray := [vec [1; 2]; vec [3; 4]].

(** A second batch, of one sample, and a batch whose target is a number
    and not an array of rows. *)
Definition batch1 : batch := [matrix 1 2 [5; 6]; matrix 1 1 [1]].
Definition batch_0d : batch := [matrix 2 2 [1; 2; 3; 4]; mkArray [] [NpInt 1]].

Definition no_constraint : option (nat -> nat) := None.

End Sample.

(** * Properties of [save_best] and of the [Network] methods *)

Module NetFacts.

Lemma SFcompare_refl (x : pyfloat) :
  SFcompare x x = None \/ SFcompare x x = Some Eq.
Proof.
  destruct x as [s | s | | s m e]; simpl; auto.
  - destruct s; auto.
  - right. destruct s; rewrite Z.compare_refl, Pos.compare_cont_refl; reflexivity.
Qed.

(** The sample scores are binary64 values. *)
Lemma sample_scores_are_binary64 :
  forallb is_binary64 [zero; half; one; two; SFopp one] = true.
Proof. reflexivity. Qed.

Lemma lt_irrefl (x : pyfloat) : lt x x = false.
Proof.
  unfold lt, SFltb. destruct (SFcompare_refl x) as [-> | ->]; reflexivity.
Qed.

Lemma lt_trans (x y z : pyfloat) :
  lt x y = true -> lt y z = true -> lt x z = true.
Proof.
  unfold lt, SFltb.
  destruct x as [sx | sx | | sx mx ex], y as [sy | sy | | sy my ey],
           z as [sz | sz | | sz mz ez]; simpl; try discriminate;
    try (destruct sx; discriminate); try (destruct sy; discriminate);
    try (destruct sz; discriminate);
    try (destruct sx, sy; discriminate); try (destruct sy, sz; discriminate);
    try (destruct sx, sz; try discriminate; reflexivity);
    try (destruct sx, sy, sz; try discriminate; reflexivity).
  destruct sx, sy, sz; try discriminate; try reflexivity;
    change (Pos.compare_cont Eq mx my) with (Pos.compare mx my);
    change (Pos.compare_cont Eq my mz) with (Pos.compare my mz);
    change (Pos.compare_cont Eq mx mz) with (Pos.compare mx mz);
    destruct (Z.compare_spec ex ey), (Z.compare_spec ey ez),
             (Z.compare_spec ex ez); try lia; try discriminate; try reflexivity;
    destruct (Pos.compare_spec mx my), (Pos.compare_spec my mz),
             (Pos.compare_spec mx mz); simpl; try lia; try discriminate;
    try reflexivity.
Qed.

(** The condition of [save_best], case by case. *)
Lemma is_better_spec (best : option pyfloat) (score : pyfloat) (isloss : bool) :
  is_better best score isloss =
  match best with
  | None => true
  | Some b => negb (truthy b) || (if isloss then lt score b else gt score b)
  end.
Proof.
  unfold is_better, not_. destruct best as [b |]; [| reflexivity].
  destruct isloss; simpl; rewrite ?orb_false_r; reflexivity.
Qed.

Lemma is_better_tie (b : pyfloat) (isloss : bool) :
  truthy b = true -> is_better (Some b) b isloss = false.
Proof.
  intros Hb. rewrite is_better_spec, Hb. unfold gt.
  destruct isloss; simpl; apply lt_irrefl.
Qed.

(** What one call of [save_best] does. *)
Lemma save_best_unfold (score : pyfloat) (isloss : bool) (self : Network) (w : world) :
  save_best score isloss self w =
  if is_better (best_score self) score isloss
  then save_weights (set_best_score score self) w
  else (Ok tt, self, w).
Proof.
  unfold save_best, mbind, get_self, put_self, ret.
  destruct (is_better _ _ _); reflexivity.
Qed.

(** Writing an archive and calling into the Keras model leave the receiver
    and the count of saves alone. *)
Lemma savez_compressed_net (file : string) (weights : gmap string ndarray)
  (self : Network) (w : world) :
  net_after (savez_compressed file weights self w) = self
  /\ save_calls (world_after (savez_compressed file weights self w))
     = save_calls w.
Proof.
  unfold savez_compressed, mbind, get_world, put_world, raise, net_after,
    world_after.
  destruct (can_write w (npz_name file)); split; reflexivity.
Qed.

Lemma call_model_net (f : world -> result unit * world) (self : Network)
  (w : world) :
  net_after (call_model f self w) = self
  /\ save_calls (world_after (call_model f self w)) = save_calls w.
Proof.
  unfold call_model, mbind, get_world, put_world, ret, raise, net_after,
    world_after.
  destruct (f w) as [[[] | e] w']; split; reflexivity.
Qed.

Lemma save_weights_net (self : Network) (w : world) :
  net_after (save_weights self w) = self.
Proof.
  unfold save_weights, mbind, get_self, get_world, put_world.
  destruct (cls self); [reflexivity | apply savez_compressed_net
                       | apply call_model_net].
Qed.

Lemma save_weights_counts (self : Network) (w : world) :
  save_calls (world_after (save_weights self w)) = S (save_calls w).
Proof.
  unfold save_weights, mbind, get_self, get_world, put_world.
  destruct (cls self).
  - reflexivity.
  - change (S (save_calls w)) with (save_calls (count_save w)).
    apply savez_compressed_net.
  - change (S (save_calls w)) with (save_calls (count_save w)).
    apply call_model_net.
Qed.

(** C10: on a network whose best score is set and not zero, [save_best] with
    a score equal to the best score does nothing: the score is not taken,
    [best_score] keeps its value and [save_weights] is not called, whatever
    [isloss] is. *)
Theorem save_best_tie_is_noop (self : Network) (w : world) (b : pyfloat)
  (isloss : bool) :
  best_score self = Some b ->
  truthy b = true ->
  save_best b isloss self w = (Ok tt, self, w).
Proof.
  intros Hbest Hb. rewrite save_best_unfold, Hbest, is_better_tie by exact Hb.
  reflexivity.
Qed.

Lemma save_best_tie_is_noop_witness :
  save_best half true (set_best_score half Sample.keras_net) Sample.w0
  = (Ok tt, set_best_score half Sample.keras_net, Sample.w0).
Proof.
  apply (save_best_tie_is_noop (set_best_score half Sample.keras_net) Sample.w0 half true);
    reflexivity.
Defined.

(** X1: as long as the best score and the reported scores are not zero, the
    best score only gets better: after any number of calls it is the old one
    or strictly below it for a loss, strictly above it otherwise. *)
Lemma save_best_each_monotone_nonzero (scores : list pyfloat) (isloss : bool) :
  forall (self : Network) (w : world) (b : pyfloat),
    best_score self = Some b ->
    truthy b = true ->
    Forall (fun score => truthy score = true) scores ->
    exists b',
      best_score (save_best_each scores isloss self w).1 = Some b'
      /\ truthy b' = true
      /\ (b' = b \/ (if isloss then lt b' b else gt b' b) = true).
Proof.
  induction scores as [| score rest IH]; intros self w b Hbest Hb Hscores; simpl.
  - exists b. auto.
  - inversion Hscores as [| ? ? Hscore Hrest]; subst.
    rewrite save_best_unfold, Hbest, is_better_spec, Hb. simpl.
    destruct (if isloss then lt score b else gt score b) eqn:Hbetter.
    + pose proof (save_weights_net (set_best_score score self) w) as Hnet.
      destruct (save_weights (set_best_score score self) w) as [[r self'] w'].
      unfold net_after in Hnet. simpl in Hnet. subst self'.
      destruct (IH (set_best_score score self) w' score eq_refl Hscore Hrest)
        as (b' & Hb' & Htruthy & Hcmp).
      exists b'. split; [exact Hb' |]. split; [exact Htruthy |].
      right. destruct Hcmp as [-> | Hcmp]; [exact Hbetter |].
      destruct isloss; unfold gt in *; eauto using lt_trans.
    + apply IH; assumption.
Qed.

(** C1: the best score does not stay monotone once it is zero.  A best
    score of [0.0] counts as unset, so with [isloss=True] the later, higher
    score [1.0] replaces it, and with [isloss=False] the later, lower score
    [-1.0] does. *)
Theorem save_best_zero_best_is_replaced :
  let n0 := set_best_score zero Sample.keras_net in
  let up := net_after (save_best one true n0 Sample.w0) in
  let down := net_after (save_best (SFopp one) false n0 Sample.w0) in
  best_score n0 = Some zero
  /\ best_score up = Some one /\ lt zero one = true
  /\ best_score down = Some (SFopp one) /\ lt (SFopp one) zero = true.
Proof. vm_compute. repeat split. Qed.

(** The zero best score is reached by [save_best] itself, from a fresh
    network (0.5, then 0.0, then 1.0 as losses). *)
Lemma save_best_loss_sequence_increases :
  let '(_, n1, w1) := save_best half true Sample.keras_net Sample.w0 in
  let '(_, n2, w2) := save_best zero true n1 w1 in
  let '(_, n3, w3) := save_best one true n2 w2 in
  best_score n1 = Some half /\ best_score n2 = Some zero
  /\ best_score n3 = Some one /\ save_calls w3 = 3%nat.
Proof. vm_compute. repeat split. Qed.

(** C2: with a best score of [0.0], the loss [1.0] is no improvement
    ([1.0 < 0.0] is false), yet [save_best] takes it: [best_score] becomes
    [1.0], [save_weights] is called and the weights file is written. *)
Theorem save_best_saves_without_improvement :
  let n0 := set_best_score zero Sample.keras_net in
  let out := save_best one true n0 Sample.w0 in
  lt one zero = false
  /\ best_score (net_after out) = Some one
  /\ save_calls (world_after out) = S (save_calls Sample.w0)
  /\ files Sample.w0 !! filepath n0 = None
  /\ files (world_after out) !! filepath n0
     = Some (named_values (layers Sample.w0)).
Proof. vm_compute. repeat split. Qed.

(** [save_weights] is called exactly when the condition of [save_best]
    holds, and then [best_score] is the new score; otherwise nothing
    changes. *)
Lemma save_best_calls_save_weights_iff (score : pyfloat) (isloss : bool)
  (self : Network) (w : world) :
  let out := save_best score isloss self w in
  if is_better (best_score self) score isloss
  then best_score (net_after out) = Some score
       /\ save_calls (world_after out) = S (save_calls w)
  else out = (Ok tt, self, w).
Proof.
  cbv zeta. rewrite save_best_unfold.
  destruct (is_better _ _ _); [| reflexivity].
  rewrite save_weights_net, save_weights_counts. split; reflexivity.
Qed.

Lemma EvalNut_net {metric value : Type} (batches : list batch)
  (network : Network) (metrics : list metric)
  (compute : metric -> ndarray -> ndarray -> result value)
  (predcol : option Z) (targetcol : Z) (w : world) :
  net_after (EvalNut batches network metrics compute predcol targetcol w).2
  = network.
Proof.
  unfold EvalNut, predict, mbind, get_self, ret, raise, net_after.
  destruct (cls network); simpl; try reflexivity.
  all: destruct (Collect _ _ _) as [[preds | e] [targets w']]; simpl; try reflexivity.
  all: destruct (vstack targets); simpl; try reflexivity.
  all: destruct (vstack preds); simpl; try reflexivity.
  all: destruct (compute_each _ _ _ _); reflexivity.
Qed.

Lemma read_weights_net (path : string) (self : Network) (w : world) :
  net_after (read_weights path self w) = self.
Proof.
  unfold read_weights, mbind, get_self, get_world, put_world, ret, raise, net_after.
  destruct (files w !! path); simpl; [| reflexivity].
  destruct (set_values _ _ _) as [[[] | e] ls]; reflexivity.
Qed.

(** C9: no method other than [save_best] changes a field of the network:
    after [train], [validate], [predict], [evaluate], [save_weights],
    [load_weights] and [print_layers], and after running the nut that
    [evaluate] builds, [filepath] and [best_score] are what they were;
    [save_best] leaves [filepath] as it was. *)
Theorem fields_mutated_only_by_save_best (self : Network) (w : world) :
  fields_unchanged self (train self w)
  /\ fields_unchanged self (validate self w)
  /\ (forall flatten, fields_unchanged self (predict flatten self w))
  /\ (forall metrics predcol targetcol,
        fields_unchanged self (evaluate metrics predcol targetcol self w))
  /\ (forall (metric value : Type) batches (metrics : list metric)
             (compute : metric -> ndarray -> ndarray -> result value)
             predcol targetcol,
        fields_unchanged self
          (EvalNut batches self metrics compute predcol targetcol w).2)
  /\ fields_unchanged self (save_weights self w)
  /\ fields_unchanged self (load_weights self w)
  /\ fields_unchanged self (print_layers self w)
  /\ (forall score isloss,
        filepath (net_after (save_best score isloss self w)) = filepath self).
Proof.
  assert (Hsame : forall A (out : result A * Network * world),
             net_after out = self -> fields_unchanged self out).
  { intros A out H. unfold fields_unchanged. rewrite H. split; reflexivity. }
  repeat match goal with |- _ /\ _ => split end; intros;
    try match goal with |- fields_unchanged _ _ => apply Hsame end.
  - unfold train, mbind, get_self, ret, raise. destruct (cls self); reflexivity.
  - unfold validate, mbind, get_self, ret, raise. destruct (cls self); reflexivity.
  - unfold predict, mbind, get_self, ret, raise. destruct (cls self); reflexivity.
  - unfold evaluate, mbind, get_self, ret, raise. destruct (cls self); reflexivity.
  - apply EvalNut_net.
  - apply save_weights_net.
  - unfold load_weights, mbind, get_self, raise.
    destruct (cls self);
      [reflexivity | apply read_weights_net | apply call_model_net].
  - unfold print_layers, mbind, get_self, get_world, put_world, raise.
    destruct (cls self); [reflexivity | reflexivity | apply call_model_net].
  - rewrite save_best_unfold. destruct (is_better _ _ _); [| reflexivity].
    rewrite save_weights_net. unfold set_best_score. reflexivity.
Qed.

(** C3: on the base class every abstract method raises
    [NotImplementedError] and nothing else, and [save_best] either returns
    or raises [NotImplementedError] (through [save_weights]); no method of
    the base class raises another kind of error. *)
Theorem base_methods_raise_only_not_implemented (weightspath : string)
  (best : option pyfloat) (w : world) :
  let self := mkNetwork weightspath best Base in
  is_not_implemented (returned (train self w)) = true
  /\ is_not_implemented (returned (validate self w)) = true
  /\ (forall flatten, is_not_implemented (returned (predict flatten self w)) = true)
  /\ (forall metrics predcol targetcol,
        is_not_implemented
          (returned (evaluate metrics predcol targetcol self w)) = true)
  /\ is_not_implemented (returned (save_weights self w)) = true
  /\ is_not_implemented (returned (load_weights self w)) = true
  /\ is_not_implemented (returned (print_layers self w)) = true
  /\ (forall score isloss,
        returned (save_best score isloss self w)
        = if is_better best score isloss
          then Raise (NotImplementedError "Implement save_weights()!")
          else Ok tt).
Proof.
  cbv zeta. repeat split; intros; try reflexivity.
  rewrite save_best_unfold. simpl. destruct (is_better _ _ _); reflexivity.
Qed.

(** C3, the other errors: [evaluate] with an empty list of metrics builds a
    nut that, run over a batch, raises [IndexError] at [results[0]]. *)
Lemma evaluate_without_metrics_raises_IndexError :
  match returned (evaluate [] None (-1) Sample.keras_net Sample.w0) with
  | Ok nut =>
      returned (nut [Sample.batch0] Sample.keras_net Sample.w0).2
      = Raise (IndexError "index out of range")
  | Raise _ => False
  end.
Proof. vm_compute. reflexivity. Qed.

(** [load_weights] of the Lasagne wrapper raises [IOError] when the file is
    missing. *)
Lemma load_weights_missing_file_raises_IOError :
  returned (load_weights Sample.lasagne_net Sample.w0)
  = Raise (IOError "No such file or directory").
Proof. vm_compute. reflexivity. Qed.

End NetFacts.

(** * Properties of [EvalNut] *)

Module EvalFacts.

Lemma slice_to_last {A} (init : list A) (x : A) :
  slice_to (init ++ [x]) (-1) = init.
Proof.
  unfold slice_to. rewrite length_app. simpl.
  replace (Z.max 0 (Z.of_nat (length init + 1) + -1)) with (Z.of_nat (length init)) by lia.
  rewrite Nat2Z.id. rewrite firstn_app, firstn_all, Nat.sub_diag. simpl.
  apply app_nil_r.
Qed.

Lemma index_last {A} (init : list A) (x : A) :
  index (init ++ [x]) (-1) = Ok x.
Proof.
  unfold index. rewrite length_app. simpl.
  replace (Z.of_nat (length init + 1) + -1) with (Z.of_nat (length init)) by lia.
  replace (Z.of_nat (length init) <? 0) with false by (symmetry; apply Z.ltb_ge; lia).
  replace (Z.of_nat (length init + 1) <=? Z.of_nat (length init)) with false
    by (symmetry; apply Z.leb_gt; lia).
  simpl. rewrite Nat2Z.id, nth_error_app2, Nat.sub_diag by lia. reflexivity.
Qed.

(** What [accumulate] and the first two stages of the pipeline do with a
    batch that ends in [target], for [targetcol=-1]: when the target can be
    iterated its rows are appended and the columns before it are handed on;
    when it cannot, the error is raised and nothing is appended. *)
Lemma accumulate_splits_off_last_column (init : batch) (target : ndarray)
  (targets : list ndarray) (func : batchfn) (w : world) :
  accumulate (-1) (init ++ [target]) targets
  = match Np.iter target with
    | Ok rows => (Ok init, targets ++ rows)
    | Raise e => (Raise e, targets)
    end
  /\ (on_fst (Map (accumulate (-1))) >>> on_snd (PredictNut func false))
       (init ++ [target]) (targets, w)
     = match Np.iter target with
       | Ok rows =>
           let (r, w') := func init w in
           (bind r (fun pred_batch => Ok [pred_batch]), (targets ++ rows, w'))
       | Raise e => (Raise e, (targets, w))
       end.
Proof.
  assert (Hacc : accumulate (-1) (init ++ [target]) targets
                 = match Np.iter target with
                   | Ok rows => (Ok init, targets ++ rows)
                   | Raise e => (Raise e, targets)
                   end).
  { unfold accumulate. rewrite index_last, slice_to_last.
    destruct (Np.iter target); reflexivity. }
  split; [exact Hacc |].
  unfold pipe, on_fst, on_snd, Map. simpl fst. simpl snd. rewrite Hacc.
  destruct (Np.iter target) as [rows | e]; simpl; [| reflexivity].
  unfold PredictNut. destruct (func init w) as [[pred_batch | e] w']; simpl; reflexivity.
Qed.

Section Pipeline.

Variables (func : batchfn) (predcol : option Z) (targetcol : Z).

(** The pipeline of [EvalNut] up to [Collect()]. *)
Let nut : stage (list ndarray * world) batch ndarray :=
  on_fst (Map (accumulate targetcol)) >>> on_snd (PredictNut func false)
  >>> Get predcol >>> Flatten.

Lemma nut_one_batch (b : batch) (t0 rows prows : list ndarray) (w w1 : world)
  (pred_batch : pyobj) :
  batch_targets targetcol b = Ok rows ->
  func (slice_to b targetcol) w = (Ok pred_batch, w1) ->
  prediction_rows predcol pred_batch = Ok prows ->
  nut b (t0, w) = (Ok prows, (t0 ++ rows, w1)).
Proof.
  unfold batch_targets, prediction_rows. intros Ht Hf Hp.
  unfold nut, pipe, on_fst, on_snd, Map, accumulate. simpl fst. simpl snd.
  destruct (index b targetcol) as [target | e]; simpl in Ht; [| discriminate].
  rewrite Ht. simpl. unfold PredictNut. rewrite Hf. simpl.
  unfold Get, Flatten, pure_stage.
  destruct predcol as [i |]; simpl.
  - destruct (getitem pred_batch i) as [y | e]; simpl in *; [| discriminate].
    rewrite Hp. simpl. rewrite !app_nil_r. reflexivity.
  - rewrite Hp. simpl. rewrite !app_nil_r. reflexivity.
Qed.

Lemma collect_all_batches (batches : list batch) :
  forall (t0 ts ps : list ndarray) (w w' : world),
    all_targets targetcol batches = Ok ts ->
    all_predictions func predcol targetcol batches w = (Ok ps, w') ->
    Collect nut batches (t0, w) = (Ok ps, (t0 ++ ts, w')).
Proof.
  unfold Collect, all_targets.
  induction batches as [| b rest IH]; intros t0 ts ps w w' Ht Hp; simpl in *.
  - inversion Ht; inversion Hp; subst. rewrite app_nil_r. reflexivity.
  - destruct (batch_targets targetcol b) as [rows | e] eqn:Hb; simpl in Ht; [| discriminate].
    destruct (mapM (batch_targets targetcol) rest) as [rss | e] eqn:Hrest;
      simpl in Ht; [| discriminate].
    inversion Ht; subst ts; clear Ht.
    destruct (func (slice_to b targetcol) w) as [[pred_batch | e] w1] eqn:Hf;
      [| discriminate].
    destruct (prediction_rows predcol pred_batch) as [prows | e] eqn:Hrows;
      [| discriminate].
    destruct (all_predictions func predcol targetcol rest w1)
      as [[more | e] w2] eqn:Hmore; [| discriminate].
    inversion Hp; subst ps w'; clear Hp.
    rewrite (nut_one_batch b t0 rows prows w w1 pred_batch Hb Hf Hrows).
    rewrite (IH (t0 ++ rows) (concat rss) more w1 w2 eq_refl Hmore).
    rewrite <- app_assoc. reflexivity.
Qed.

End Pipeline.

Lemma compute_each_calls {metric value : Type}
  (compute : metric -> ndarray -> ndarray -> result value)
  (targets preds : ndarray) (metrics : list metric) :
  (forall m, In m metrics -> is_ok (compute m targets preds) = true) ->
  (compute_each compute targets preds metrics).1
  = map (fun m => (m, targets, preds)) metrics.
Proof.
  induction metrics as [| m ms IH]; intros Hok; simpl; [reflexivity |].
  pose proof (Hok m (or_introl eq_refl)) as Hm.
  destruct (compute m targets preds) as [v | e]; [| discriminate].
  destruct (compute_each compute targets preds ms) as [calls r] eqn:Hrest.
  simpl in *. f_equal. apply IH. intros m' Hm'. apply Hok. right. exact Hm'.
Qed.

Lemma predict_of_pred_func (network : Network) (func : batchfn) (flatten : bool)
  (w : world) :
  pred_func network = Some func ->
  predict flatten network w = (Ok (PredictNut func flatten), network, w).
Proof.
  unfold pred_func, predict, mbind, get_self, ret, raise.
  destruct (cls network); intros H; inversion H; reflexivity.
Qed.

(** An empty batch has no last column: [accumulate] raises. *)
Lemma accumulate_empty_batch (targets : list ndarray) :
  accumulate (-1) [] targets = (Raise (IndexError "index out of range"), targets).
Proof. reflexivity. Qed.

(** C4: when the targets and the predictions of all batches can be
    accumulated and each of the two lists can be stacked, and [compute] does
    not raise, [EvalNut] applies [compute] to every metric exactly once, in
    order, each time on the stacked targets (as floats) and the stacked
    predictions of all batches. *)
Theorem EvalNut_applies_metrics_to_full_stack {metric value : Type}
  (batches : list batch) (network : Network) (func : batchfn)
  (metrics : list metric)
  (compute : metric -> ndarray -> ndarray -> result value)
  (predcol : option Z) (targetcol : Z) (w w' : world)
  (ts ps : list ndarray) (T P : ndarray) :
  pred_func network = Some func ->
  all_targets targetcol batches = Ok ts ->
  all_predictions func predcol targetcol batches w = (Ok ps, w') ->
  vstack ts = Ok T ->
  vstack ps = Ok P ->
  (forall m, In m metrics -> is_ok (compute m (astype_float T) P) = true) ->
  (EvalNut batches network metrics compute predcol targetcol w).1
  = map (fun m => (m, astype_float T, P)) metrics.
Proof.
  intros Hnet Ht Hp HT HP Hok. unfold EvalNut.
  rewrite (predict_of_pred_func network func false w Hnet).
  rewrite (collect_all_batches func predcol targetcol batches [] ts ps w w' Ht Hp).
  simpl app. rewrite HT, HP.
  pose proof (compute_each_calls compute (astype_float T) P metrics Hok) as Hcalls.
  destruct (compute_each compute (astype_float T) P metrics) as [calls r].
  exact Hcalls.
Qed.

Lemma EvalNut_applies_metrics_to_full_stack_witness :
  (EvalNut [Sample.batch0] Sample.keras_net [1; 2]%nat Sample.name_of None (-1)
     Sample.w0).1
  = map (fun m => (m, astype_float (Sample.matrix 2 1 [0; 1]),
                   Sample.matrix 2 2 [1; 2; 3; 4]))
        [1; 2]%nat.
Proof.
  apply (EvalNut_applies_metrics_to_full_stack [Sample.batch0] Sample.keras_net
           Sample.first_input [1; 2]%nat Sample.name_of None (-1)
           Sample.w0 Sample.w0 Sample.target_rows0 Sample.prediction_rows0).
  - reflexivity.
  - reflexivity.
  - reflexivity.
  - reflexivity.
  - reflexivity.
  - intros m _. reflexivity.
Defined.

(** C4, as stated: over an empty sequence of batches nothing can be stacked;
    [np.vstack] raises and the metric is never applied. *)
Lemma EvalNut_without_batches_applies_no_metric :
  let out := EvalNut [] Sample.keras_net [1%nat] Sample.name_of None (-1)
               Sample.w0 in
  out.1 = []
  /\ returned out.2
     = Raise (ValueError "need at least one array to concatenate").
Proof. vm_compute. split; reflexivity. Qed.

(** The targets of batches that end in their target column are the rows of
    these columns, and the predictions are made from the columns before. *)
Lemma all_targets_last (columns : list (batch * ndarray)) :
  all_targets (-1) (map with_target columns)
  = bind (mapM Np.iter (map snd columns)) (fun rows => Ok (concat rows)).
Proof.
  unfold all_targets. f_equal.
  induction columns as [| [init target] rest IH]; simpl; [reflexivity |].
  unfold batch_targets at 1, with_target at 1. simpl fst. simpl snd.
  rewrite index_last. simpl. rewrite IH. reflexivity.
Qed.

Lemma all_predictions_before_last (func : batchfn) (predcol : option Z)
  (columns : list (batch * ndarray)) :
  forall w,
    all_predictions func predcol (-1) (map with_target columns) w
    = predictions_over func predcol (map fst columns) w.
Proof.
  induction columns as [| [init target] rest IH]; intros w; simpl;
    [reflexivity |].
  unfold with_target at 1. simpl fst. simpl snd. rewrite slice_to_last.
  destruct (func init w) as [[pred_batch | e] w1]; [| reflexivity].
  destruct (prediction_rows predcol pred_batch); [| reflexivity].
  rewrite IH. reflexivity.
Qed.

(** C5: over batches that each end in a target array that can be iterated,
    [EvalNut] with [targetcol=-1] takes the last element of every batch as
    its target array and hands exactly the elements before it to the
    prediction function: the metrics are computed on the stacked rows of the
    last elements and on the stacked predictions made from the elements
    before them. *)
Theorem EvalNut_takes_last_column_as_target {metric value : Type}
  (columns : list (batch * ndarray)) (network : Network) (func : batchfn)
  (metrics : list metric)
  (compute : metric -> ndarray -> ndarray -> result value)
  (predcol : option Z) (w w' : world)
  (rows : list (list ndarray)) (ps : list ndarray) (T P : ndarray) :
  pred_func network = Some func ->
  mapM Np.iter (map snd columns) = Ok rows ->
  predictions_over func predcol (map fst columns) w = (Ok ps, w') ->
  vstack (concat rows) = Ok T ->
  vstack ps = Ok P ->
  (forall m, In m metrics -> is_ok (compute m (astype_float T) P) = true) ->
  (EvalNut (map with_target columns) network metrics compute predcol (-1) w).1
  = map (fun m => (m, astype_float T, P)) metrics.
Proof.
  intros Hnet Hrows Hp HT HP Hok. unfold EvalNut.
  rewrite (predict_of_pred_func network func false w Hnet).
  rewrite (collect_all_batches func predcol (-1) (map with_target columns) []
             (concat rows) ps w w').
  - simpl app. rewrite HT, HP.
    pose proof (compute_each_calls compute (astype_float T) P metrics Hok)
      as Hcalls.
    destruct (compute_each compute (astype_float T) P metrics) as [calls r].
    exact Hcalls.
  - rewrite all_targets_last, Hrows. reflexivity.
  - rewrite all_predictions_before_last. exact Hp.
Qed.

(** Two batches of features and targets: the targets of the three samples
    are stacked, and the predictions are the features. *)
Lemma EvalNut_takes_last_column_as_target_witness :
  (EvalNut [Sample.batch0; Sample.batch1] Sample.keras_net [1; 2]%nat
     Sample.name_of None (-1) Sample.w0).1
  = map (fun m => (m, astype_float (Sample.matrix 3 1 [0; 1; 1]),
                   Sample.matrix 3 2 [1; 2; 3; 4; 5; 6]))
        [1; 2]%nat.
Proof.
  apply (EvalNut_takes_last_column_as_target
           [([Sample.matrix 2 2 [1; 2; 3; 4]], Sample.matrix 2 1 [0; 1]);
            ([Sample.matrix 1 2 [5; 6]], Sample.matrix 1 1 [1])]
           Sample.keras_net Sample.first_input [1; 2]%nat Sample.name_of None
           Sample.w0 Sample.w0
           [[Sample.vec [0]; Sample.vec [1]]; [Sample.vec [1]]]
           [Sample.vec [1; 2]; Sample.vec [3; 4]; Sample.vec [5; 6]]).
  - reflexivity.
  - reflexivity.
  - reflexivity.
  - reflexivity.
  - reflexivity.
  - intros m _. reflexivity.
Defined.

(** C5, as stated: a batch whose last element is a 0-d array has no rows to
    take as targets; [accumulate] raises [TypeError], nothing is appended to
    the targets, the prediction function is not called and no metric is
    computed. *)
Lemma EvalNut_target_without_rows_raises_TypeError :
  let out := EvalNut [Sample.batch_0d] Sample.keras_net [1%nat] Sample.name_of
               None (-1) Sample.w0 in
  accumulate (-1) Sample.batch_0d []
  = (Raise (TypeError "iteration over a 0-d array"), [])
  /\ out.1 = []
  /\ returned out.2 = Raise (TypeError "iteration over a 0-d array").
Proof. vm_compute. repeat split; reflexivity. Qed.

End EvalFacts.

(** * Properties of the splitter *)

Module SplitFacts.

(** ** Shuffling *)

Section ShuffleFacts.

Context {seed : Type} (randbelow : seed -> nat -> nat * seed) {B : Type}.

Lemma shuffle_go_Permutation (fuel : nat) :
  forall (rand : seed) (l : list B), (shuffle_go randbelow fuel rand l).1 ≡ₚ l.
Proof.
  induction fuel as [| fuel IH]; intros rand l; simpl; [reflexivity |].
  destruct l as [| x0 l0]; [reflexivity |].
  destruct (randbelow rand (length (x0 :: l0))) as [d rand'].
  set (j := (d mod length (x0 :: l0))%nat).
  destruct ((x0 :: l0) !! j) as [x |] eqn:Hx; [| reflexivity].
  specialize (IH rand' (delete j (x0 :: l0))).
  destruct (shuffle_go randbelow fuel rand' (delete j (x0 :: l0))) as [rest rand''].
  simpl in *. rewrite IH. symmetry. apply delete_Permutation. exact Hx.
Qed.

Lemma shuffle_Permutation (rand : seed) (l : list B) :
  (shuffle randbelow rand l).1 ≡ₚ l.
Proof. apply shuffle_go_Permutation. Qed.

End ShuffleFacts.

(** Two random sources that answer alike shuffle alike. *)
Section FillFacts.

Context {A : Type}.

Lemma take_groups_prefix (n : Z) (groups : list (list A)) :
  forall (split s : list A) (rest : list (list A)),
    take_groups n split groups = (s, rest) ->
    exists taken, groups = taken ++ rest /\ s = split ++ concat taken.
Proof.
  induction groups as [| g gs IH]; intros split s rest H; simpl in H.
  - inversion H; subst. exists []. simpl. rewrite app_nil_r. auto.
  - destruct (n <=? Z.of_nat (length split)).
    + inversion H; subst. exists []. simpl. rewrite app_nil_r. auto.
    + destruct (IH _ _ _ H) as (taken & -> & ->).
      exists (g :: taken). simpl. rewrite app_assoc. auto.
Qed.

(** Every bucket is made of whole groups, and the buckets together are the
    groups in their order. *)
Lemma fill_whole_groups (ns : list Z) :
  forall (groups : list (list A)),
    ns <> [] ->
    concat (fill ns groups) = concat groups
    /\ length (fill ns groups) = length ns
    /\ forall s, In s (fill ns groups) ->
         exists sub, s = concat sub /\ forall g, In g sub -> In g groups.
Proof.
  induction ns as [| n ns IH]; intros groups Hne; [congruence |].
  simpl. destruct ns as [| n2 ns'].
  - simpl. rewrite app_nil_r. repeat split.
    intros s [<- | []]. exists groups. auto.
  - destruct (take_groups n [] groups) as [split rest] eqn:Ht.
    destruct (take_groups_prefix _ _ _ _ _ Ht) as (taken & -> & Hs).
    simpl in Hs. subst split.
    destruct (IH rest ltac:(discriminate)) as (Hcat & Hlen & Hsub).
    repeat split.
    + change (concat (concat taken :: fill (n2 :: ns') rest))
        with (concat taken ++ concat (fill (n2 :: ns') rest)).
      rewrite Hcat, concat_app. reflexivity.
    + change (length (concat taken :: fill (n2 :: ns') rest))
        with (S (length (fill (n2 :: ns') rest))).
      rewrite Hlen. reflexivity.
    + intros s [<- | Hin].
      * exists taken. split; [reflexivity |]. intros g Hg. apply in_or_app. auto.
      * destruct (Hsub s Hin) as (sub & -> & Hg). exists sub.
        split; [reflexivity |]. intros g Hin'. apply in_or_app. auto.
Qed.







End FillFacts.

(** ** Grouping by the constraint *)

Section GroupFacts.

Context {A K : Type} `{EqDecision K} (key : A -> K).

Lemma group_insert_keys (k : K) (x : A) (gs : list (K * list A)) (k' : K) :
  In k' (map fst (group_insert k x gs)) <-> k' = k \/ In k' (map fst gs).
Proof.
  induction gs as [| [k0 g0] gs IH]; simpl.
  - intuition congruence.
  - destruct (decide (k = k0)) as [-> | Hne]; simpl; [intuition congruence |].
    rewrite IH. intuition congruence.
Qed.

Lemma group_insert_NoDup (k : K) (x : A) (gs : list (K * list A)) :
  NoDup (map fst gs) -> NoDup (map fst (group_insert k x gs)).
Proof.
  induction gs as [| [k0 g0] gs IH]; simpl; intros Hnd.
  - apply NoDup_singleton.
  - destruct (decide (k = k0)) as [-> | Hne]; simpl; [exact Hnd |].
    inversion Hnd as [| ? ? Hk0 Hgs]; subst. constructor; [| auto].
    rewrite list_elem_of_In, group_insert_keys. intros [-> | Hin]; [congruence |].
    apply Hk0, list_elem_of_In, Hin.
Qed.

Lemma group_insert_In (k : K) (x : A) (gs : list (K * list A)) (k' : K)
  (g' : list A) :
  In (k', g') (group_insert k x gs) ->
  In (k', g') gs
  \/ (k' = k /\ exists g, g' = g ++ [x] /\ (g = [] \/ In (k, g) gs)).
Proof.
  induction gs as [| [k0 g0] gs IH]; simpl.
  - intros [H | []]. inversion H; subst. right. split; [reflexivity |].
    exists []. auto.
  - destruct (decide (k = k0)) as [-> | Hne]; simpl.
    + intros [H | H]; [| auto]. inversion H; subst. right.
      split; [reflexivity |]. exists g0. auto.
    + intros [H | H]; [auto |]. destruct (IH H) as [Hold | (-> & g & -> & Hg)].
      * auto.
      * right. split; [reflexivity |]. exists g. intuition.
Qed.

Lemma group_insert_covers_new (k : K) (x : A) (gs : list (K * list A)) :
  exists g, In (k, g) (group_insert k x gs) /\ In x g.
Proof.
  induction gs as [| [k0 g0] gs IH]; simpl.
  - exists [x]. simpl. auto.
  - destruct (decide (k = k0)) as [-> | Hne]; simpl.
    + exists (g0 ++ [x]). split; [auto |]. apply in_or_app. simpl. auto.
    + destruct IH as (g & Hg & Hx). exists g. auto.
Qed.

Lemma group_insert_covers_old (k : K) (x : A) (gs : list (K * list A))
  (k' : K) (g : list A) (z : A) :
  In (k', g) gs -> In z g ->
  exists g', In (k', g') (group_insert k x gs) /\ In z g'.
Proof.
  induction gs as [| [k0 g0] gs IH]; simpl; [intros [] |].
  intros Hin Hz. destruct (decide (k = k0)) as [-> | Hne]; simpl.
  - destruct Hin as [H | H].
    + inversion H; subst. exists (g ++ [x]). split; [auto |].
      apply in_or_app. auto.
    + exists g. auto.
  - destruct Hin as [H | H].
    + inversion H; subst. exists g. auto.
    + destruct (IH H Hz) as (g' & Hg' & Hz'). exists g'. auto.
Qed.

Lemma NoDup_fst_unique (l : list (K * list A)) (k : K) (a b : list A) :
  NoDup (map fst l) -> In (k, a) l -> In (k, b) l -> a = b.
Proof.
  induction l as [| [k1 g1] l IH]; simpl; intros Hnd Ha Hb; [destruct Ha |].
  inversion Hnd as [| ? ? Hk1 Hl]; subst.
  destruct Ha as [Ha | Ha], Hb as [Hb | Hb].
  - congruence.
  - inversion Ha; subst. exfalso. apply Hk1, list_elem_of_In, in_map_iff.
    exists (k, b). auto.
  - inversion Hb; subst. exfalso. apply Hk1, list_elem_of_In, in_map_iff.
    exists (k, a). auto.
  - auto.
Qed.

(** The groups have distinct keys, the samples of a group have its key, and
    every sample is in the group of its key. *)
Lemma group_by_fold (samples : list A) :
  forall (acc : list (K * list A)) (seen : list A),
    NoDup (map fst acc) ->
    (forall k g, In (k, g) acc -> forall x, In x g -> key x = k) ->
    (forall z, In z seen -> exists g, In (key z, g) acc /\ In z g) ->
    let gs := foldl (fun gs x => group_insert (key x) x gs) acc samples in
    NoDup (map fst gs)
    /\ (forall k g, In (k, g) gs -> forall x, In x g -> key x = k)
    /\ (forall z, In z (seen ++ samples) -> exists g, In (key z, g) gs /\ In z g).
Proof.
  induction samples as [| s samples IH]; intros acc seen Hnd Hkey Hcov; simpl.
  - rewrite app_nil_r. auto.
  - replace (seen ++ s :: samples) with ((seen ++ [s]) ++ samples)
      by (rewrite <- app_assoc; reflexivity).
    apply IH.
    + apply group_insert_NoDup, Hnd.
    + intros k g Hin x Hx.
      destruct (group_insert_In _ _ _ _ _ Hin) as [Hold | (-> & g0 & -> & Hg0)].
      * eapply Hkey; eauto.
      * apply in_app_or in Hx. destruct Hx as [Hx | [<- | []]]; [| reflexivity].
        destruct Hg0 as [-> | Hg0]; [destruct Hx |]. eapply Hkey; eauto.
    + intros z Hz. apply in_app_or in Hz. destruct Hz as [Hz | [<- | []]].
      * destruct (Hcov z Hz) as (g & Hg & Hzg).
        eapply group_insert_covers_old; eauto.
      * apply group_insert_covers_new.
Qed.

Lemma group_by_spec (samples : list A) :
  NoDup (map fst (group_by key samples))
  /\ (forall k g, In (k, g) (group_by key samples) ->
        forall x, In x g -> key x = k)
  /\ (forall z, In z samples ->
        exists g, In (key z, g) (group_by key samples) /\ In z g).
Proof.
  apply (group_by_fold samples [] []); simpl.
  - constructor.
  - intros k g [].
  - intros z [].
Qed.

(** Two samples with one key are in one group, and in no other. *)
Lemma group_by_same_key (samples : list A) (x y : A) :
  In x samples -> In y samples -> key x = key y ->
  (exists g, In g (map snd (group_by key samples)) /\ In x g /\ In y g)
  /\ (forall g, In g (map snd (group_by key samples)) -> In x g -> In y g).
Proof.
  intros Hx Hy Hxy.
  destruct (group_by_spec samples) as (Hnd & Hkey & Hcov).
  destruct (Hcov y Hy) as (gy & Hgy & Hygy).
  assert (Hall : forall g, In g (map snd (group_by key samples)) ->
                           In x g -> In y g).
  { intros g Hg Hxg. apply in_map_iff in Hg. destruct Hg as ([k g'] & Heq & Hin).
    simpl in Heq. subst g'.
    assert (Hk : key x = k) by (eapply Hkey; eauto).
    rewrite <- Hxy, Hk in Hgy.
    rewrite (NoDup_fst_unique _ k g gy Hnd Hin Hgy). exact Hygy. }
  split; [| exact Hall].
  destruct (Hcov x Hx) as (gx & Hgx & Hxgx).
  assert (Hin : In gx (map snd (group_by key samples))).
  { apply in_map_iff. exists (key x, gx). auto. }
  exists gx. auto.
Qed.

End GroupFacts.

(** ** The splitter *)



(** The example rule gives the sizes the tests of the splitter assert:
    700 and 300 for the ratio 0.7 over a thousand samples, 600, 300 and 100
    for the ratios 0.6, 0.3 and 0.1, and an error for 0.6 and 0.7. *)
Lemma example_sizes_of_the_tests :
  example_sizes 1000 (Single (decimal 7 10)) = Ok (700, [300])
  /\ example_sizes 1000 (Several [decimal 6 10; decimal 3 10; decimal 1 10])
     = Ok (600, [300; 100])
  /\ example_sizes 1000 (Several [decimal 6 10; decimal 7 10])
     = Raise (ValueError "Ratios must sum up to one").
Proof. repeat split; vm_compute; reflexivity. Qed.




(** Without a constraint, samples that occur twice land in two
    partitions. *)
Lemma SplitRandom_repeated_sample_in_two_partitions :
  (SplitRandom example_sizes lcg [1; 1]%nat (Single half)
     Sample.no_constraint 0%N).1
  = Ok [[1]; [1]]%nat.
Proof. vm_compute. reflexivity. Qed.

(** The test's error: ratios 0.6 and 0.7 do not sum up to one. *)
Lemma SplitRandom_ratios_must_sum_up_to_one :
  (SplitRandom example_sizes lcg (seq 0 1000)
     (Several [decimal 6 10; decimal 7 10]) Sample.no_constraint 0%N).1
  = Raise (ValueError "Ratios must sum up to one").
Proof. vm_compute. reflexivity. Qed.

(** C8: with a constraint, two samples on which the constraint function
    takes the same value are in the same partition: some partition holds
    both, and every partition that holds one holds the other. *)
Theorem SplitRandom_keeps_groups_together {seed A K : Type} `{EqDecision K}
  (bucket_sizes : nat -> ratio_arg -> result (Z * list Z))
  (randbelow : seed -> nat -> nat * seed) (samples : list A)
  (ratio : ratio_arg) (key : A -> K) (rand rand' : seed)
  (splits : list (list A)) (x y : A) :
  SplitRandom bucket_sizes randbelow samples ratio (Some key) rand
  = (Ok splits, rand') ->
  In x samples -> In y samples -> key x = key y ->
  (exists s, In s splits /\ In x s /\ In y s)
  /\ (forall s, In s splits -> In x s -> In y s).
Proof.
  unfold SplitRandom. intros Hrun Hx Hy Hxy.
  destruct (bucket_sizes (length samples) ratio) as [[n1 ns'] | e];
    [| discriminate].
  pose proof (shuffle_Permutation randbelow rand (map snd (group_by key samples)))
    as Hperm.
  destruct (shuffle randbelow rand (map snd (group_by key samples))) as [gs rand''].
  simpl in Hperm. inversion Hrun; subst splits rand''; clear Hrun.
  set (ns := n1 :: ns').
  assert (Hne : ns <> []) by discriminate.
  destruct (fill_whole_groups ns gs Hne) as (Hcat & _ & Hsub).
  destruct (group_by_same_key key samples x y Hx Hy Hxy) as ((g0 & Hg0 & Hxg0 & _) & Hall).
  assert (Hsame : forall s, In s (fill ns gs) -> In x s -> In y s).
  { intros s Hs Hxs. destruct (Hsub s Hs) as (sub & -> & Hgroups).
    apply in_concat in Hxs. destruct Hxs as (g & Hg & Hxg).
    apply in_concat. exists g. split; [exact Hg |].
    apply Hall; [| exact Hxg].
    apply list_elem_of_In. rewrite <- Hperm. apply list_elem_of_In, Hgroups, Hg. }
  split; [| exact Hsame].
  assert (Hin : In x (concat (fill ns gs))).
  { rewrite Hcat. apply in_concat. exists g0. split; [| exact Hxg0].
    apply list_elem_of_In. rewrite Hperm. apply list_elem_of_In, Hg0. }
  apply in_concat in Hin. destruct Hin as (s & Hs & Hxs).
  exists s. auto.
Qed.

Lemma SplitRandom_keeps_groups_together_witness :
  (exists s,
      In s [[0; 1; 2; 3; 6; 7]; [8; 9; 4; 5]]%nat /\ In 2%nat s /\ In 3%nat s)
  /\ (forall s,
        In s [[0; 1; 2; 3; 6; 7]; [8; 9; 4; 5]]%nat -> In 2%nat s -> In 3%nat s).
Proof.
  apply (SplitRandom_keeps_groups_together example_sizes lcg (seq 0 10)
           (Single (decimal 6 10)) (fun x => Nat.div x 2) 0%N 229283573%N).
  - vm_compute. reflexivity.
  - simpl. auto 10.
  - simpl. auto 10.
  - reflexivity.
Defined.

End SplitFacts.

(** * More on [save_best] *)

Module SaveBestFacts.

Lemma save_best_each_monotone_nonzero_witness :
  exists b',
    best_score
      (save_best_each [one; half; two] true
         (set_best_score two Sample.keras_net) Sample.w0).1 = Some b'
    /\ truthy b' = true
    /\ (b' = two \/ lt b' two = true).
Proof.
  apply (NetFacts.save_best_each_monotone_nonzero [one; half; two] true
           (set_best_score two Sample.keras_net) Sample.w0 two).
  - reflexivity.
  - reflexivity.
  - repeat constructor.
Defined.

Lemma lt_nan_r (x : pyfloat) : lt x S754_nan = false.
Proof. destruct x; reflexivity. Qed.

Lemma is_better_nan_best (score : pyfloat) (isloss : bool) :
  is_better (Some S754_nan) score isloss = false.
Proof.
  rewrite NetFacts.is_better_spec. unfold gt.
  destruct isloss; simpl; [apply lt_nan_r | reflexivity].
Qed.

Lemma save_best_each_nan_best (scores : list pyfloat) (isloss : bool) :
  forall (self : Network) (w : world),
    best_score self = Some S754_nan ->
    save_best_each scores isloss self w = (self, w).
Proof.
  induction scores as [| score rest IH]; intros self w Hbest; simpl;
    [reflexivity |].
  rewrite NetFacts.save_best_unfold, Hbest, is_better_nan_best.
  apply IH, Hbest.
Qed.

(** X2: a NaN as the first score is taken as the best score and stays: no
    later score, whatever its value and whatever [isloss], replaces it or
    saves weights again. *)
Theorem save_best_nan_first_blocks_all_later (self : Network) (w : world)
  (isloss isloss' : bool) (scores : list pyfloat) :
  best_score self = None ->
  let first := save_best S754_nan isloss self w in
  best_score (net_after first) = Some S754_nan
  /\ save_best_each scores isloss' (net_after first) (world_after first)
     = (net_after first, world_after first).
Proof.
  intros Hbest first.
  assert (Hnan : best_score (net_after first) = Some S754_nan).
  { unfold first. rewrite NetFacts.save_best_unfold, Hbest. simpl.
    rewrite NetFacts.save_weights_net. reflexivity. }
  split; [exact Hnan |]. apply save_best_each_nan_best, Hnan.
Qed.

Lemma save_best_nan_first_blocks_all_later_witness :
  let first := save_best S754_nan true Sample.keras_net Sample.w0 in
  best_score (net_after first) = Some S754_nan
  /\ save_best_each [half; zero; one] true (net_after first) (world_after first)
     = (net_after first, world_after first).
Proof.
  apply (save_best_nan_first_blocks_all_later Sample.keras_net Sample.w0
           true true [half; zero; one]).
  reflexivity.
Defined.

(** X3: on the base class [save_best] with a score that is not zero raises
    [NotImplementedError] only after it has set [best_score]; the same call
    made again finds the score no better and returns without an error. *)
Theorem save_best_base_raises_after_update (weightspath : string) (w : world)
  (score : pyfloat) (isloss : bool) :
  truthy score = true ->
  let self := Network_init weightspath Base in
  let first := save_best score isloss self w in
  returned first = Raise (NotImplementedError "Implement save_weights()!")
  /\ best_score (net_after first) = Some score
  /\ save_best score isloss (net_after first) (world_after first)
     = (Ok tt, net_after first, world_after first).
Proof.
  intros Hscore self first.
  assert (Hfirst : first = (Raise (NotImplementedError "Implement save_weights()!"),
                            set_best_score score self, count_save w)).
  { unfold first. rewrite NetFacts.save_best_unfold. reflexivity. }
  rewrite Hfirst. split; [reflexivity |]. split; [reflexivity |].
  unfold net_after, world_after. simpl.
  rewrite NetFacts.save_best_unfold. simpl best_score.
  rewrite NetFacts.is_better_tie by exact Hscore. reflexivity.
Qed.

Lemma save_best_base_raises_after_update_witness :
  let self := Network_init "weights.npz" Base in
  let first := save_best half true self Sample.w0 in
  returned first = Raise (NotImplementedError "Implement save_weights()!")
  /\ best_score (net_after first) = Some half
  /\ save_best half true (net_after first) (world_after first)
     = (Ok tt, net_after first, world_after first).
Proof.
  apply (save_best_base_raises_after_update "weights.npz" Sample.w0 half true).
  reflexivity.
Defined.

End SaveBestFacts.

(** * Weight files *)

Module WeightFacts.

(** ** Parameter names *)

Lemma pretty_N_go_underscore_free (x : N) :
  forall s, underscore_free s = true ->
            underscore_free (pretty_N_go x s) = true.
Proof.
  induction (N.lt_wf_0 x) as [x _ IH]; intros s Hs.
  destruct (decide (x = 0)%N) as [-> | Hx].
  - rewrite pretty_N_go_0. exact Hs.
  - rewrite pretty_N_go_step by lia. apply IH.
    + apply N.div_lt; lia.
    + simpl. rewrite Hs, andb_true_r.
      unfold pretty_N_char. repeat case_match; reflexivity.
Qed.

Lemma pretty_nat_underscore_free (n : nat) :
  underscore_free (pretty n) = true.
Proof.
  unfold pretty, pretty_nat, pretty, pretty_N.
  case_decide; [reflexivity |]. apply pretty_N_go_underscore_free. reflexivity.
Qed.

Lemma underscore_split (s1 : string) :
  forall (s2 t1 t2 : string),
    underscore_free s1 = true -> underscore_free s2 = true ->
    s1 +:+ "_" +:+ t1 = s2 +:+ "_" +:+ t2 ->
    s1 = s2 /\ t1 = t2.
Proof.
  induction s1 as [| c s1 IH]; intros [| d s2] t1 t2 H1 H2 Heq; simpl in *.
  - inversion Heq. auto.
  - inversion Heq; subst. rewrite Ascii.eqb_refl in H2. discriminate.
  - inversion Heq; subst. rewrite Ascii.eqb_refl in H1. discriminate.
  - inversion Heq; subst. apply andb_true_iff in H1, H2.
    destruct (IH s2 t1 t2) as [-> ->]; tauto.
Qed.

Lemma name_of_inj (p q : param) : name_of p = name_of q -> p = q.
Proof.
  destruct p as [l1 p1], q as [l2 p2]. unfold name_of. simpl. intros H.
  apply underscore_split in H; try apply pretty_nat_underscore_free.
  destruct H as [Hl Hp]. apply (inj pretty) in Hl, Hp. congruence.
Qed.

Lemma elem_of_named_params (ls : list layer) (n : string) (q : param) :
  (n, q) ∈ _get_named_params ls
  <-> n = name_of q /\ is_Some (get_value q ls).
Proof.
  unfold _get_named_params, get_value, name_of. rewrite list_elem_of_join. split.
  - intros (l & Hl & Hls). apply elem_of_lookup_imap in Hls.
    destruct Hls as (i & ly & -> & Hly). apply elem_of_lookup_imap in Hl.
    destruct Hl as (j & v & Heq & Hv). inversion Heq; subst. simpl.
    split; [reflexivity |]. rewrite Hly. simpl. eauto.
  - intros (-> & v & Hv). destruct q as [i j]. simpl in *.
    destruct (ls !! i) as [ly |] eqn:Hly; simpl in Hv; [| discriminate].
    exists (imap (fun p_num (_ : ndarray) =>
                    (pretty i +:+ "_" +:+ pretty p_num, (i, p_num)))
                 (get_params ly)).
    split.
    + exact (elem_of_lookup_imap_2
               (fun p_num (_ : ndarray) =>
                  (pretty i +:+ "_" +:+ pretty p_num, (i, p_num)))
               (get_params ly) v j Hv).
    + exact (elem_of_lookup_imap_2
               (fun l_num ly' =>
                  imap (fun p_num (_ : ndarray) =>
                          (pretty l_num +:+ "_" +:+ pretty p_num, (l_num, p_num)))
                       (get_params ly'))
               ls ly i Hly).
Qed.


(** ** The saved dictionary *)

Section NamedFold.

Variable ls : list layer.

Let step (d : gmap string ndarray) (np : string * param) : gmap string ndarray :=
  match get_value np.2 ls with
  | Some v => <[np.1 := v]> d
  | None => d
  end.

Lemma named_fold_lookup (k : string) (v : ndarray) (l : list (string * param)) :
  forall (d : gmap string ndarray),
    (forall q, (k, q) ∈ l -> get_value q ls = Some v) ->
    (exists q, (k, q) ∈ l) \/ d !! k = Some v ->
    foldl step d l !! k = Some v.
Proof.
  induction l as [| [k1 q1] l IH]; intros d Hval Hin; simpl.
  - destruct Hin as [(q & Hq) | Hd]; [inversion Hq | exact Hd].
  - apply IH.
    + intros q Hq. apply Hval. right. exact Hq.
    + destruct (decide (k1 = k)) as [-> | Hne].
      * right. unfold step. simpl. rewrite (Hval q1) by left.
        apply lookup_insert_eq.
      * destruct Hin as [(q & Hq) | Hd].
        -- left. exists q. inversion Hq; subst; [congruence | assumption].
        -- right. unfold step. simpl.
           destruct (get_value q1 ls); [rewrite lookup_insert_ne by exact Hne |];
             exact Hd.
Qed.

Lemma named_fold_absent (k : string) (l : list (string * param)) :
  forall (d : gmap string ndarray),
    (forall q, (k, q) ∈ l -> get_value q ls = None) ->
    foldl step d l !! k = d !! k.
Proof.
  induction l as [| [k1 q1] l IH]; intros d Hnone; simpl; [reflexivity |].
  rewrite IH by (intros q Hq; apply Hnone; right; exact Hq).
  unfold step. simpl. destruct (get_value q1 ls) as [v |] eqn:Hv; [| reflexivity].
  apply lookup_insert_ne. intros ->. rewrite (Hnone q1) in Hv by left.
  discriminate.
Qed.

Lemma named_fold_inv (k : string) (v : ndarray) (l : list (string * param)) :
  forall (d : gmap string ndarray),
    foldl step d l !! k = Some v ->
    d !! k = Some v \/ exists q, (k, q) ∈ l /\ get_value q ls = Some v.
Proof.
  induction l as [| [k1 q1] l IH]; intros d Hk; simpl in Hk; [auto |].
  destruct (IH _ Hk) as [Hd | (q & Hq & Hv)].
  - unfold step in Hd. simpl in Hd.
    destruct (get_value q1 ls) as [v1 |] eqn:Hv1; [| auto].
    destruct (decide (k1 = k)) as [-> | Hne].
    + rewrite lookup_insert_eq in Hd. inversion Hd; subst.
      right. exists q1. split; [left | exact Hv1].
    + rewrite lookup_insert_ne in Hd by exact Hne. auto.
  - right. exists q. split; [right; exact Hq | exact Hv].
Qed.

End NamedFold.

Lemma named_values_lookup (ls : list layer) (n : string) (v : ndarray) :
  named_values ls !! n = Some v
  <-> exists q, n = name_of q /\ get_value q ls = Some v.
Proof.
  unfold named_values. split.
  - intros Hn. apply named_fold_inv in Hn.
    destruct Hn as [Hn | (q & Hq & Hv)]; [rewrite lookup_empty in Hn; discriminate |].
    apply elem_of_named_params in Hq. destruct Hq as [-> _]. eauto.
  - intros (q & -> & Hv).
    apply (named_fold_lookup ls (name_of q) v (_get_named_params ls) ∅).
    + intros q' Hq'. apply elem_of_named_params in Hq'.
      destruct Hq' as [Hname _]. apply name_of_inj in Hname. congruence.
    + left. exists q. apply elem_of_named_params. split; [reflexivity | eauto].
Qed.

(** ** Writing one parameter *)

Lemma get_set_value_eq (q : param) (v : ndarray) (ls : list layer) :
  is_Some (get_value q ls) -> get_value q (set_value q v ls) = Some v.
Proof.
  destruct q as [l p]. unfold get_value, set_value. simpl. intros [v0 Hv0].
  rewrite list_lookup_alter_eq.
  destruct (ls !! l) as [ly |]; simpl in *; [| discriminate].
  apply list_lookup_insert_eq. eapply lookup_lt_Some, Hv0.
Qed.

Lemma get_set_value_ne (p q : param) (v : ndarray) (ls : list layer) :
  p <> q -> get_value q (set_value p v ls) = get_value q ls.
Proof.
  destruct p as [l1 p1], q as [l2 p2]. unfold get_value, set_value. simpl.
  intros Hne. destruct (decide (l1 = l2)) as [-> | Hl].
  - rewrite list_lookup_alter_eq. destruct (ls !! l2) as [ly |]; simpl; [| reflexivity].
    apply list_lookup_insert_ne. congruence.
  - rewrite list_lookup_alter_ne by exact Hl. reflexivity.
Qed.

Lemma set_value_shape (p : param) (v : ndarray) (ls : list layer) :
  architecture (set_value p v ls) = architecture ls
  /\ map class_name (set_value p v ls) = map class_name ls.
Proof.
  destruct p as [l p]. unfold set_value, architecture. simpl.
  split; apply list_eq; intros i; rewrite !list_lookup_fmap;
    (destruct (decide (l = i)) as [-> | Hne];
     [rewrite list_lookup_alter_eq; destruct (ls !! i); simpl;
      rewrite ?length_insert; reflexivity
     | rewrite list_lookup_alter_ne by exact Hne; reflexivity]).
Qed.

Lemma is_Some_get_value (q : param) (ls : list layer) :
  is_Some (get_value q ls)
  <-> exists n, architecture ls !! q.1 = Some n /\ (q.2 < n)%nat.
Proof.
  destruct q as [l p]. unfold get_value, architecture. simpl.
  rewrite list_lookup_fmap. destruct (ls !! l) as [ly |]; simpl.
  - rewrite lookup_lt_is_Some. split.
    + intros H. eauto.
    + intros (n & Hn & Hp). inversion Hn; subst. exact Hp.
  - split; [intros [? H]; discriminate | intros (n & Hn & _); discriminate].
Qed.

Lemma same_architecture_valid (a b : list layer) (q : param) :
  architecture a = architecture b ->
  (is_Some (get_value q a) <-> is_Some (get_value q b)).
Proof. intros H. rewrite !is_Some_get_value, H. reflexivity. Qed.

(** ** Reading the parameters back *)

Lemma set_values_shape (weights : gmap string ndarray)
  (named : list (string * param)) :
  forall (ls : list layer),
    architecture (set_values weights named ls).2 = architecture ls
    /\ map class_name (set_values weights named ls).2 = map class_name ls.
Proof.
  induction named as [| [n q] named IH]; intros ls; simpl; [auto |].
  destruct (weights !! n) as [v |]; simpl; [| auto].
  destruct (IH (set_value q v ls)) as [Ha Hc].
  destruct (set_value_shape q v ls) as [Ha' Hc']. split; congruence.
Qed.

Lemma set_values_ok (weights : gmap string ndarray)
  (named : list (string * param)) :
  forall (ls : list layer),
    (set_values weights named ls).1 = Ok tt
    <-> forall n q, (n, q) ∈ named -> is_Some (weights !! n).
Proof.
  induction named as [| [n q] named IH]; intros ls; simpl.
  - split; [intros _ n q H; inversion H | reflexivity].
  - destruct (weights !! n) as [v |] eqn:Hn; simpl.
    + rewrite IH. split.
      * intros H n' q' Hin. inversion Hin; subst; eauto.
      * intros H n' q' Hin. apply (H n' q'). right. exact Hin.
    + split; [discriminate |]. intros H.
      destruct (H n q) as [v Hv]; [left | congruence].
Qed.


(** Writing the values of [saved] over layers of the same architecture
    gives the parameters of [saved]. *)
Lemma set_values_restores (saved : list layer) (weights : gmap string ndarray)
  (named : list (string * param)) :
  (forall n q, (n, q) ∈ named ->
     is_Some (get_value q saved) /\ weights !! n = get_value q saved) ->
  forall (ls : list layer),
    architecture ls = architecture saved ->
    forall q,
      (exists n, (n, q) ∈ named) \/ get_value q ls = get_value q saved ->
      get_value q (set_values weights named ls).2 = get_value q saved.
Proof.
  induction named as [| [n p] named IH]; intros Hnamed ls Harch q Hq; simpl.
  - destruct Hq as [(n & Hn) | Hq]; [inversion Hn | exact Hq].
  - destruct (Hnamed n p ltac:(left)) as [[v Hv] Hw]. rewrite Hw, Hv.
    apply IH.
    + intros n' q' Hin. apply Hnamed. right. exact Hin.
    + rewrite <- Harch. apply set_value_shape.
    + destruct (decide (p = q)) as [-> | Hne].
      * right. rewrite Hv. apply get_set_value_eq.
        apply (same_architecture_valid ls saved q Harch). eauto.
      * destruct Hq as [(n' & Hn') | Hq].
        -- left. exists n'. inversion Hn'; subst; [congruence | assumption].
        -- right. rewrite get_set_value_ne by exact Hne. exact Hq.
Qed.

Lemma get_value_ext (a b : list layer) :
  architecture a = architecture b ->
  (forall q, get_value q a = get_value q b) ->
  map get_params a = map get_params b.
Proof.
  intros Harch Hget. apply list_eq. intros l. rewrite !list_lookup_fmap.
  pose proof (f_equal (fun x => x !! l) Harch) as Hl. simpl in Hl.
  unfold architecture in Hl. rewrite !list_lookup_fmap in Hl.
  destruct (a !! l) as [la |] eqn:Ha, (b !! l) as [lb |] eqn:Hb;
    simpl in *; try discriminate; [| reflexivity].
  f_equal. apply list_eq. intros p.
  specialize (Hget (l, p)). unfold get_value in Hget. simpl in Hget.
  rewrite Ha, Hb in Hget. exact Hget.
Qed.

(** ** [save_weights] and [load_weights] of the Lasagne wrapper *)

Lemma save_weights_lasagne (self : Network) (w : world) :
  is_lasagne self = true ->
  save_weights self w
  = if can_write w (archive self)
    then (Ok tt, self,
          write_file (archive self) (named_values (layers w)) (count_save w))
    else (Raise (IOError "No such file or directory"), self, count_save w).
Proof.
  unfold is_lasagne, archive, save_weights, savez_compressed, mbind, get_self,
    get_world, put_world, raise.
  destruct (cls self); intros H; try discriminate. simpl.
  destruct (can_write w (npz_name (filepath self))); reflexivity.
Qed.

Lemma load_weights_lasagne (self : Network) (w : world) :
  is_lasagne self = true ->
  load_weights self w
  = match files w !! filepath self with
    | None => (Raise (IOError "No such file or directory"), self, w)
    | Some weights =>
        let out := set_values weights (_get_named_params (layers w)) (layers w) in
        (out.1, self, set_layers out.2 w)
    end.
Proof.
  unfold is_lasagne, load_weights, read_weights, mbind, get_self, get_world,
    put_world, ret, raise.
  destruct (cls self); intros H; try discriminate.
  destruct (files w !! filepath self); [| reflexivity].
  destruct (set_values _ _ _) as [[[] | e] ls]; reflexivity.
Qed.

(** X5: [save_weights] of a Lasagne wrapper leaves the model, the console
    and every file but its archive as they were.  Where the archive can be
    written it returns normally and the archive holds each parameter of the
    model under its name and nothing else; where it cannot, it raises
    [IOError] and no file changes. *)
Theorem save_weights_writes_the_parameters (self : Network) (w : world) :
  is_lasagne self = true ->
  let out := save_weights self w in
  layers (world_after out) = layers w
  /\ stdout (world_after out) = stdout w
  /\ (forall path, path <> archive self ->
        files (world_after out) !! path = files w !! path)
  /\ if can_write w (archive self)
     then returned out = Ok tt
          /\ exists d,
               files (world_after out) !! archive self = Some d
               /\ forall n v,
                    d !! n = Some v
                    <-> exists q, n = name_of q
                                  /\ get_value q (layers w) = Some v
     else returned out = Raise (IOError "No such file or directory")
          /\ files (world_after out) = files w.
Proof.
  intros Hw out. unfold out. rewrite (save_weights_lasagne self w Hw).
  destruct (can_write w (archive self)).
  - unfold returned, world_after, write_file. simpl.
    split; [reflexivity |]. split; [reflexivity |]. split.
    + intros path Hpath. apply lookup_insert_ne. congruence.
    + split; [reflexivity |].
      exists (named_values (layers w)). split; [apply lookup_insert_eq |].
      apply named_values_lookup.
  - unfold returned, world_after. simpl. auto.
Qed.

Lemma save_weights_writes_the_parameters_witness :
  let out := save_weights Sample.lasagne_net Sample.w0 in
  layers (world_after out) = layers Sample.w0
  /\ stdout (world_after out) = stdout Sample.w0
  /\ (forall path, path <> archive Sample.lasagne_net ->
        files (world_after out) !! path = files Sample.w0 !! path)
  /\ returned out = Ok tt
  /\ exists d,
       files (world_after out) !! archive Sample.lasagne_net = Some d
       /\ forall n v,
            d !! n = Some v
            <-> exists q, n = name_of q /\ get_value q (layers Sample.w0) = Some v.
Proof.
  apply (save_weights_writes_the_parameters Sample.lasagne_net Sample.w0).
  reflexivity.
Defined.

(** Where no file can be written, nothing is saved. *)
Lemma save_weights_unwritable_raises_IOError :
  let out := save_weights Sample.lasagne_net Sample.w_readonly in
  returned out = Raise (IOError "No such file or directory")
  /\ files (world_after out) = files Sample.w_readonly.
Proof. vm_compute. split; reflexivity. Qed.



(** On that input the file is read and the parameter takes the saved
    value. *)
Lemma load_weights_reads_the_archive :
  let out := load_weights Sample.lasagne_net Sample.w_saved in
  returned out = Ok tt
  /\ layers (world_after out) = [mkLayer "Dense" [Sample.vec [1; 2]]].
Proof. vm_compute. split; reflexivity. Qed.

(** X7: weights saved by a Lasagne wrapper whose file name ends in [.npz]
    and can be written can be read back: after [save_weights], whatever
    values the parameters take afterwards (the architecture being the
    same), [load_weights] succeeds and every parameter has its saved value
    again. *)
Theorem save_then_load_restores (self : Network) (w : world)
  (later : list layer) :
  is_lasagne self = true ->
  endswith (filepath self) ".npz" = true ->
  can_write w (filepath self) = true ->
  architecture later = architecture (layers w) ->
  let saved := save_weights self w in
  let out := load_weights self (set_layers later (world_after saved)) in
  returned saved = Ok tt
  /\ returned out = Ok tt
  /\ map get_params (layers (world_after out)) = map get_params (layers w)
  /\ map class_name (layers (world_after out)) = map class_name later.
Proof.
  intros Hw Hext Hcan Harch saved out. unfold out, saved.
  assert (Hfile : archive self = filepath self).
  { unfold archive, npz_name. rewrite Hext. reflexivity. }
  rewrite (save_weights_lasagne self w Hw), Hfile, Hcan.
  split; [reflexivity |]. unfold world_after. simpl.
  rewrite (load_weights_lasagne self _ Hw).
  unfold set_layers, write_file. simpl. rewrite lookup_insert_eq. simpl.
  assert (Hnamed : forall n q, (n, q) ∈ _get_named_params later ->
            is_Some (get_value q (layers w))
            /\ named_values (layers w) !! n = get_value q (layers w)).
  { intros n q Hin. apply elem_of_named_params in Hin. destruct Hin as [-> Hq].
    apply (same_architecture_valid later (layers w) q Harch) in Hq.
    split; [exact Hq |]. destruct Hq as [v Hv]. rewrite Hv.
    apply named_values_lookup. eauto. }
  destruct (set_values_shape (named_values (layers w)) (_get_named_params later)
              later) as [Ha Hc].
  unfold returned. simpl. split; [| split; [| exact Hc]].
  - apply set_values_ok. intros n q Hin. destruct (Hnamed n q Hin) as [[v Hv] Hn].
    rewrite Hn, Hv. eauto.
  - apply get_value_ext; [congruence |]. intros q.
    destruct (get_value q (layers w)) as [v |] eqn:Hv.
    + rewrite <- Hv.
      apply (set_values_restores (layers w) _ _ Hnamed later Harch q).
      left. exists (name_of q). apply elem_of_named_params.
      split; [reflexivity |].
      apply (same_architecture_valid later (layers w) q Harch). eauto.
    + destruct (get_value q (set_values _ _ later).2) as [v' |] eqn:Hv';
        [| reflexivity].
      exfalso.
      assert (Hs : is_Some (get_value q (layers w))).
      { eapply same_architecture_valid; [| eexists; exact Hv'].
        congruence. }
      destruct Hs as [? Hs]. congruence.
Qed.

Lemma save_then_load_restores_witness :
  let saved := save_weights Sample.lasagne_net Sample.w0 in
  let out :=
    load_weights Sample.lasagne_net
      (set_layers [mkLayer "Dense" [Sample.vec [7; 8]]] (world_after saved)) in
  returned saved = Ok tt
  /\ returned out = Ok tt
  /\ map get_params (layers (world_after out))
     = map get_params (layers Sample.w0)
  /\ map class_name (layers (world_after out)) = ["Dense"].
Proof.
  apply (save_then_load_restores Sample.lasagne_net Sample.w0
           [mkLayer "Dense" [Sample.vec [7; 8]]]); reflexivity.
Defined.

Lemma append_neq (s t : string) : t <> EmptyString -> s +:+ t <> s.
Proof.
  intros Ht. induction s as [| c s IH]; simpl; [exact Ht |].
  intros H. inversion H. auto.
Qed.

(** X8: a Lasagne wrapper whose file name does not end in [.npz] cannot
    read back what it saved: [np.savez_compressed] writes to the name with
    [.npz] added (or raises [IOError] and writes nothing where that file
    cannot be written), [np.load] reads the name as given, and unless such a
    file was there before, [load_weights] raises [IOError]. *)
Theorem lasagne_save_load_needs_npz (train_fn val_fn pred_fn : batchfn)
  (weightspath : string) (w : world) :
  endswith weightspath ".npz" = false ->
  files w !! weightspath = None ->
  let self := LasagneNetwork_init train_fn val_fn pred_fn (Some weightspath) in
  let saved := save_weights self w in
  (if can_write w (weightspath +:+ ".npz")
   then returned saved = Ok tt
        /\ files (world_after saved) !! (weightspath +:+ ".npz")
           = Some (named_values (layers w))
   else returned saved = Raise (IOError "No such file or directory")
        /\ files (world_after saved) = files w)
  /\ returned (load_weights self (world_after saved))
     = Raise (IOError "No such file or directory").
Proof.
  intros Hext Hnone self saved. unfold saved.
  rewrite (save_weights_lasagne self w eq_refl).
  unfold archive, npz_name. simpl. rewrite Hext.
  destruct (can_write w (weightspath +:+ ".npz")).
  - unfold returned, world_after, write_file. simpl. split.
    + split; [reflexivity | apply lookup_insert_eq].
    + rewrite (load_weights_lasagne self _ eq_refl). simpl.
      rewrite lookup_insert_ne by (apply append_neq; discriminate).
      rewrite Hnone. reflexivity.
  - unfold returned, world_after. simpl. split; [auto |].
    rewrite (load_weights_lasagne self _ eq_refl). simpl.
    rewrite Hnone. reflexivity.
Qed.

Lemma lasagne_save_load_needs_npz_witness :
  let self := LasagneNetwork_init Sample.first_input Sample.first_input
                Sample.first_input (Some "weights") in
  let saved := save_weights self Sample.w0 in
  (returned saved = Ok tt
   /\ files (world_after saved) !! ("weights" +:+ ".npz")
      = Some (named_values (layers Sample.w0)))
  /\ returned (load_weights self (world_after saved))
     = Raise (IOError "No such file or directory").
Proof.
  apply (lasagne_save_load_needs_npz Sample.first_input Sample.first_input
           Sample.first_input "weights" Sample.w0); reflexivity.
Defined.

(** X15: on a Lasagne wrapper [save_best] changes nothing at all when the
    condition on the score fails.  When it holds, [best_score] is set to the
    score and [save_weights] is called once; where the archive can be
    written [save_best] returns and the archive holds the current
    parameters of the model, and where it cannot, [save_best] raises
    [IOError] with [best_score] already set and no file changed. *)
Theorem save_best_saves_exactly_when_taken (self : Network) (w : world)
  (score : pyfloat) (isloss : bool) :
  is_lasagne self = true ->
  let out := save_best score isloss self w in
  if is_better (best_score self) score isloss
  then best_score (net_after out) = Some score
       /\ filepath (net_after out) = filepath self
       /\ save_calls (world_after out) = S (save_calls w)
       /\ if can_write w (archive self)
          then returned out = Ok tt
               /\ files (world_after out) !! archive self
                  = Some (named_values (layers w))
          else returned out = Raise (IOError "No such file or directory")
               /\ files (world_after out) = files w
  else out = (Ok tt, self, w).
Proof.
  intros Hw out. unfold out. rewrite NetFacts.save_best_unfold.
  destruct (is_better (best_score self) score isloss); [| reflexivity].
  assert (Hw' : is_lasagne (set_best_score score self) = true) by exact Hw.
  rewrite (save_weights_lasagne _ w Hw').
  change (archive (set_best_score score self)) with (archive self).
  destruct (can_write w (archive self));
    unfold returned, net_after, world_after, write_file; simpl.
  - repeat split. apply lookup_insert_eq.
  - repeat split.
Qed.

Lemma save_best_saves_exactly_when_taken_witness :
  let out := save_best half true Sample.lasagne_net Sample.w_readonly in
  best_score (net_after out) = Some half
  /\ filepath (net_after out) = filepath Sample.lasagne_net
  /\ save_calls (world_after out) = S (save_calls Sample.w_readonly)
  /\ returned out = Raise (IOError "No such file or directory")
  /\ files (world_after out) = files Sample.w_readonly.
Proof.
  apply (save_best_saves_exactly_when_taken Sample.lasagne_net
           Sample.w_readonly half true).
  reflexivity.
Defined.

(** The same call where the archive can be written. *)
Lemma save_best_writes_the_archive :
  let out := save_best half true Sample.lasagne_net Sample.w0 in
  returned out = Ok tt
  /\ best_score (net_after out) = Some half
  /\ files (world_after out) !! "weights_lasagne_net.npz"
     = Some (named_values (layers Sample.w0)).
Proof. vm_compute. repeat split; reflexivity. Qed.

End WeightFacts.

(** * More on the pipeline adapters *)

Module PipelineFacts.

(** ** Draining a nut *)

Lemma feed_app {S A B} (f : stage S A B) (xs ys : list A) (s : S) :
  feed f (xs ++ ys) s
  = match feed f xs s with
    | (Raise e, s1) => (Raise e, s1)
    | (Ok out1, s1) =>
        match feed f ys s1 with
        | (Raise e, s2) => (Raise e, s2)
        | (Ok out2, s2) => (Ok (out1 ++ out2), s2)
        end
    end.
Proof.
  revert s. induction xs as [| x xs IH]; intros s; simpl.
  - destruct (feed f ys s) as [[out | e] s']; reflexivity.
  - destruct (f x s) as [[out | e] s1]; [| reflexivity].
    rewrite IH. destruct (feed f xs s1) as [[out1 | e] s2]; [| reflexivity].
    destruct (feed f ys s2) as [[out2 | e] s3]; [| reflexivity].
    rewrite app_assoc. reflexivity.
Qed.

Lemma feed_TrainValNut_length (func : batchfn) (batches : list batch) :
  forall (w w' : world) (results : list pyobj),
    feed (TrainValNut func) batches w = (Ok results, w') ->
    length results = length batches.
Proof.
  induction batches as [| b rest IH]; intros w w' results H; simpl in H.
  - inversion H. reflexivity.
  - change (TrainValNut func b w)
      with (let (r, s') := func b w in (bind r (fun y => Ok [y]), s')) in H.
    destruct (func b w) as [[r | e] w1]; simpl in H; [| discriminate].
    destruct (feed (TrainValNut func) rest w1) as [[more | e] w2] eqn:Hrest;
      [| discriminate].
    inversion H; subst. simpl. f_equal. eapply IH. exact Hrest.
Qed.

(** X9: training or validation yields one result per batch and stops at
    the first batch on which the framework function raises: the batches
    after it are not run, and the model keeps what the batches before it
    did. *)
Theorem TrainValNut_stops_at_first_raise (func : batchfn)
  (before after : list batch) (b : batch) (w w1 w2 : world)
  (results : list pyobj) (e : exn) :
  Collect (TrainValNut func) before w = (Ok results, w1) ->
  func b w1 = (Raise e, w2) ->
  length results = length before
  /\ Collect (TrainValNut func) (before ++ b :: after) w = (Raise e, w2).
Proof.
  unfold Collect. intros Hbefore Hb. split.
  - eapply feed_TrainValNut_length. exact Hbefore.
  - rewrite feed_app, Hbefore. simpl.
    change (TrainValNut func b w1)
      with (let (r, s') := func b w1 in (bind r (fun y => Ok [y]), s')).
    rewrite Hb. reflexivity.
Qed.

Lemma TrainValNut_stops_at_first_raise_witness :
  length [PArr (Sample.vec [1])] = length [[Sample.vec [1]]]
  /\ Collect (TrainValNut Sample.first_input)
       ([[Sample.vec [1]]] ++ [] :: [[Sample.vec [2]]]) Sample.w0
     = (Raise (TypeError "missing argument"), Sample.w0).
Proof.
  apply (TrainValNut_stops_at_first_raise Sample.first_input
           [[Sample.vec [1]]] [[Sample.vec [2]]] [] Sample.w0 Sample.w0
           Sample.w0 [PArr (Sample.vec [1])] (TypeError "missing argument"));
    reflexivity.
Defined.

(** ** [flatten] *)

Lemma feed_wrap_rows {A} (f : stage world A pyobj) (g : stage world A ndarray) :
  (forall a w, f a w = wrap_rows (g a w)) ->
  forall xs w, feed f xs w = wrap_rows (feed g xs w).
Proof.
  intros Hfg. induction xs as [| x xs IH]; intros w; simpl; [reflexivity |].
  rewrite Hfg. unfold wrap_rows at 1.
  destruct (g x w) as [[rows | e] w1]; simpl; [| reflexivity].
  rewrite IH. unfold wrap_rows.
  destruct (feed g xs w1) as [[more | e] w2]; simpl; [| reflexivity].
  rewrite map_app. reflexivity.
Qed.

(** X10: predicting with [flatten=True] is predicting with
    [flatten=False] followed by [Flatten()]: over any batches both give the
    same single predictions in the same order, raise alike and leave the
    framework in the same state. *)
Theorem PredictNut_flatten_is_Flatten (func : batchfn) (batches : list batch)
  (w : world) :
  Collect (PredictNut func true) batches w
  = wrap_rows (Collect (PredictNut func false >>> Flatten) batches w).
Proof.
  unfold Collect. apply feed_wrap_rows. clear. intros b w.
  unfold pipe, PredictNut, Flatten, pure_stage, wrap_rows.
  destruct (func b w) as [[pred_batch | e] w']; simpl; [| reflexivity].
  destruct (iterate pred_batch) as [rows | e]; simpl; [| reflexivity].
  rewrite app_nil_r. reflexivity.
Qed.

(** ** [accumulate] for any target column *)

Ltac decide_bounds :=
  cbv zeta;
  repeat match goal with
         | |- context [?a <? ?b] => destruct (Z.ltb_spec a b); try lia
         | |- context [?a <=? ?b] => destruct (Z.leb_spec a b); try lia
         end;
  simpl.

Lemma index_middle {A} (pre post : list A) (x : A) :
  index (pre ++ x :: post) (Z.of_nat (length pre)) = Ok x
  /\ index (pre ++ x :: post) (- Z.of_nat (S (length post))) = Ok x.
Proof.
  unfold index. rewrite length_app. simpl length.
  assert (Hnth : nth_error (pre ++ x :: post) (length pre) = Some x).
  { rewrite nth_error_app2, Nat.sub_diag by lia. reflexivity. }
  split; decide_bounds.
  - rewrite Nat2Z.id, Hnth. reflexivity.
  - replace (Z.to_nat (Z.of_nat (length pre + S (length post))
                       + - Z.of_nat (S (length post))))
      with (length pre) by lia.
    rewrite Hnth. reflexivity.
Qed.

Lemma slice_to_middle {A} (pre post : list A) (x : A) :
  slice_to (pre ++ x :: post) (Z.of_nat (length pre)) = pre
  /\ slice_to (pre ++ x :: post) (- Z.of_nat (S (length post))) = pre.
Proof.
  unfold slice_to. rewrite length_app. simpl length.
  assert (Hfirst : firstn (length pre) (pre ++ x :: post) = pre).
  { rewrite firstn_app, firstn_all, Nat.sub_diag. simpl. apply app_nil_r. }
  split; decide_bounds.
  - replace (Z.to_nat (Z.min (Z.of_nat (length pre))
                         (Z.of_nat (length pre + S (length post)))))
      with (length pre) by lia.
    exact Hfirst.
  - replace (Z.to_nat (Z.max 0 (Z.of_nat (length pre + S (length post))
                                + - Z.of_nat (S (length post)))))
      with (length pre) by lia.
    exact Hfirst.
Qed.

(** X11: for a target column in the middle of the batch, counted from the
    front or from the end, [accumulate] takes that column as the targets and
    hands on only the columns before it: the columns after the target
    column are dropped.  A target column outside the batch raises
    [IndexError] and leaves the accumulated targets alone. *)
Theorem accumulate_keeps_columns_before_target (pre post : batch)
  (target : ndarray) (targets : list ndarray) (k : nat) :
  let b := pre ++ target :: post in
  let taken :=
    match Np.iter target with
    | Ok rows => (Ok pre, targets ++ rows)
    | Raise e => (Raise e, targets)
    end in
  accumulate (Z.of_nat (length pre)) b targets = taken
  /\ accumulate (- Z.of_nat (S (length post))) b targets = taken
  /\ accumulate (Z.of_nat (length b + k)) b targets
     = (Raise (IndexError "index out of range"), targets)
  /\ accumulate (- Z.of_nat (S (length b + k))) b targets
     = (Raise (IndexError "index out of range"), targets).
Proof.
  intros b taken. unfold accumulate, taken, b.
  destruct (index_middle pre post target) as [Hi1 Hi2].
  destruct (slice_to_middle pre post target) as [Hs1 Hs2].
  rewrite Hi1, Hi2, Hs1, Hs2.
  split; [destruct (Np.iter target); reflexivity |].
  split; [destruct (Np.iter target); reflexivity |].
  unfold index. split; decide_bounds; reflexivity.
Qed.

(** ** What [EvalNut] computes *)

Section Evaluation.

Variables (func : batchfn) (predcol : option Z) (targetcol : Z).

Let nut : stage (list ndarray * world) batch ndarray :=
  on_fst (Map (accumulate targetcol)) >>> on_snd (PredictNut func false)
  >>> Get predcol >>> Flatten.

Lemma nut_one_batch_inv (b : batch) (t0 t1 prows : list ndarray) (w w1 : world) :
  nut b (t0, w) = (Ok prows, (t1, w1)) ->
  exists rows pred_batch,
    batch_targets targetcol b = Ok rows
    /\ t1 = t0 ++ rows
    /\ func (slice_to b targetcol) w = (Ok pred_batch, w1)
    /\ prediction_rows predcol pred_batch = Ok prows.
Proof.
  unfold nut, pipe, on_fst, on_snd, Map, accumulate, batch_targets,
    PredictNut, Get, Flatten, pure_stage.
  simpl fst. simpl snd.
  destruct (index b targetcol) as [target | e]; simpl; [| discriminate].
  destruct (Np.iter target) as [rows | e]; simpl; [| discriminate].
  destruct (func (slice_to b targetcol) w) as [[pred_batch | e] w']; simpl;
    [| discriminate].
  assert (Hrows : forall out,
            match prediction_rows predcol pred_batch with
            | Ok ps => (Ok (ps ++ []), (t0 ++ rows, w'))
            | Raise e => (Raise e, (t0 ++ rows, w'))
            end = out ->
            out = (Ok prows, (t1, w1)) ->
            exists rows0 pb,
              Ok rows = Ok rows0 /\ t1 = t0 ++ rows0
              /\ (Ok pred_batch, w') = (Ok pb, w1)
              /\ prediction_rows predcol pb = Ok prows).
  { intros out <- H.
    destruct (prediction_rows predcol pred_batch) as [ps | e] eqn:Hpr;
      [| discriminate].
    inversion H; subst. exists rows, pred_batch. rewrite app_nil_r. auto. }
  intros H. eapply Hrows; [| exact H]. unfold prediction_rows.
  destruct predcol as [i |]; simpl.
  - destruct (getitem pred_batch i) as [y | e]; simpl; [| reflexivity].
    destruct (iterate y); reflexivity.
  - destruct (iterate pred_batch); reflexivity.
Qed.

Lemma collect_all_batches_inv (batches : list batch) :
  forall (t0 targets ps : list ndarray) (w w' : world),
    Collect nut batches (t0, w) = (Ok ps, (targets, w')) ->
    exists ts,
      all_targets targetcol batches = Ok ts
      /\ targets = t0 ++ ts
      /\ all_predictions func predcol targetcol batches w = (Ok ps, w').
Proof.
  unfold Collect, all_targets.
  induction batches as [| b rest IH]; intros t0 targets ps w w' H; simpl in *.
  - inversion H; subst. exists []. rewrite app_nil_r. auto.
  - destruct (nut b (t0, w)) as [[prows | e] [t1 w1]] eqn:Hb; [| discriminate].
    destruct (feed nut rest (t1, w1)) as [[more | e] [t2 w2]] eqn:Hrest;
      [| discriminate].
    inversion H; subst; clear H.
    destruct (nut_one_batch_inv _ _ _ _ _ _ Hb) as (rows & pb & Hrows & -> & Hf & Hp).
    destruct (IH _ _ _ _ _ Hrest) as (ts & Hts & -> & Hall).
    destruct (mapM (batch_targets targetcol) rest) as [rss |]; simpl in Hts;
      [| discriminate].
    inversion Hts; subst. rewrite Hrows, Hf, Hp, Hall. simpl.
    exists (rows ++ concat rss). rewrite app_assoc. auto.
Qed.

End Evaluation.

Lemma compute_each_calls_in {metric value : Type}
  (compute : metric -> ndarray -> ndarray -> result value)
  (targets preds : ndarray) (metrics : list metric) (c : @call metric) :
  In c (compute_each compute targets preds metrics).1 ->
  exists m, In m metrics /\ c = (m, targets, preds).
Proof.
  induction metrics as [| m ms IH]; simpl; [intros [] |].
  destruct (compute m targets preds) as [v | e]; simpl.
  - destruct (compute_each compute targets preds ms) as [calls r]. simpl in *.
    intros [<- | Hin]; [eauto |].
    destruct (IH Hin) as (m' & Hm' & ->). eauto.
  - intros [<- | []]. eauto.
Qed.

Lemma compute_each_results {metric value : Type}
  (compute : metric -> ndarray -> ndarray -> result value)
  (targets preds : ndarray) (metrics : list metric) :
  (compute_each compute targets preds metrics).2
  = mapM (fun m => compute m targets preds) metrics.
Proof.
  induction metrics as [| m ms IH]; simpl; [reflexivity |].
  destruct (compute m targets preds) as [v | e]; simpl; [| reflexivity].
  destruct (compute_each compute targets preds ms) as [calls r]. simpl in *.
  rewrite IH. reflexivity.
Qed.

(** X12: whatever the batches, the metrics and the network, every
    application of [compute] that [EvalNut] makes is to a metric of the list
    and to the stacked targets (as floats) and the stacked predictions of
    all batches: if one batch cannot be processed, or nothing can be
    stacked, no metric is applied at all. *)
Theorem EvalNut_applies_compute_only_to_full_stack {metric value : Type}
  (batches : list batch) (network : Network) (metrics : list metric)
  (compute : metric -> ndarray -> ndarray -> result value)
  (predcol : option Z) (targetcol : Z) (w : world)
  (m : metric) (t p : ndarray) :
  In (m, t, p) (EvalNut batches network metrics compute predcol targetcol w).1 ->
  In m metrics
  /\ exists func ts ps w' T,
       pred_func network = Some func
       /\ all_targets targetcol batches = Ok ts
       /\ all_predictions func predcol targetcol batches w = (Ok ps, w')
       /\ vstack ts = Ok T
       /\ vstack ps = Ok p
       /\ t = astype_float T.
Proof.
  unfold EvalNut. intros Hin.
  destruct (pred_func network) as [func |] eqn:Hfunc.
  - rewrite (EvalFacts.predict_of_pred_func network func false w Hfunc) in Hin.
    destruct (Collect _ batches ([], w)) as [[ps | e] [targets w']] eqn:Hc;
      [| destruct Hin].
    apply collect_all_batches_inv in Hc. destruct Hc as (ts & Hts & -> & Hps).
    simpl in Hin.
    destruct (vstack ts) as [T | e] eqn:HT; [| destruct Hin].
    destruct (vstack ps) as [P | e] eqn:HP; [| destruct Hin].
    pose proof (compute_each_calls_in compute (astype_float T) P metrics (m, t, p))
      as Hcalls.
    destruct (compute_each compute (astype_float T) P metrics) as [calls r].
    destruct (Hcalls Hin) as (m' & Hm' & Heq). inversion Heq; subst.
    split; [exact Hm' |]. exists func, ts, ps, w', T. auto 10.
  - unfold pred_func in Hfunc. unfold predict, mbind, get_self, raise, ret in Hin.
    destruct (cls network); try discriminate. destruct Hin.
Qed.

Lemma EvalNut_applies_compute_only_to_full_stack_witness :
  In 2%nat [1; 2]%nat
  /\ exists func ts ps w' T,
       pred_func Sample.keras_net = Some func
       /\ all_targets (-1) [Sample.batch0] = Ok ts
       /\ all_predictions func None (-1) [Sample.batch0] Sample.w0 = (Ok ps, w')
       /\ vstack ts = Ok T
       /\ vstack ps = Ok (Sample.matrix 2 2 [1; 2; 3; 4])
       /\ astype_float (Sample.matrix 2 1 [0; 1]) = astype_float T.
Proof.
  apply (EvalNut_applies_compute_only_to_full_stack [Sample.batch0]
           Sample.keras_net [1; 2]%nat Sample.name_of None (-1) Sample.w0
           2%nat (astype_float (Sample.matrix 2 1 [0; 1]))
           (Sample.matrix 2 2 [1; 2; 3; 4])).
  vm_compute. right. left. reflexivity.
Defined.

(** X13: when the batches can be stacked and [compute] gives a value for
    every metric, [EvalNut] returns the value itself for one metric and the
    tuple of the values, in the order of the metrics, for two or more; for
    an empty list of metrics it raises [IndexError]. *)
Theorem EvalNut_returns_value_or_tuple {metric value : Type}
  (batches : list batch) (network : Network) (func : batchfn)
  (metrics : list metric)
  (compute : metric -> ndarray -> ndarray -> result value)
  (predcol : option Z) (targetcol : Z) (w w' : world)
  (ts ps : list ndarray) (T P : ndarray) (values : list value) :
  pred_func network = Some func ->
  all_targets targetcol batches = Ok ts ->
  all_predictions func predcol targetcol batches w = (Ok ps, w') ->
  vstack ts = Ok T ->
  vstack ps = Ok P ->
  mapM (fun m => compute m (astype_float T) P) metrics = Ok values ->
  length values = length metrics
  /\ (EvalNut batches network metrics compute predcol targetcol w).2
     = (match values with
        | [] => Raise (IndexError "index out of range")
        | [v] => Ok (One v)
        | _ :: _ :: _ => Ok (Many values)
        end, network, w').
Proof.
  intros Hnet Ht Hp HT HP Hvalues. split.
  - clear -Hvalues. revert values Hvalues.
    induction metrics as [| m ms IH]; intros values H; simpl in H.
    + inversion H. reflexivity.
    + destruct (compute m (astype_float T) P) as [v |]; simpl in H; [| discriminate].
      destruct (mapM _ ms) as [vs |]; simpl in H; [| discriminate].
      inversion H; subst. simpl. f_equal. apply IH. reflexivity.
  - unfold EvalNut.
    rewrite (EvalFacts.predict_of_pred_func network func false w Hnet).
    rewrite (EvalFacts.collect_all_batches func predcol targetcol batches
               [] ts ps w w' Ht Hp).
    simpl app. rewrite HT, HP.
    pose proof (compute_each_results compute (astype_float T) P metrics) as Hres.
    destruct (compute_each compute (astype_float T) P metrics) as [calls r].
    simpl in Hres. rewrite Hres, Hvalues. simpl.
    destruct values as [| v [| v2 vs]]; reflexivity.
Qed.

Lemma EvalNut_returns_value_or_tuple_witness :
  length [1; 2]%nat = length [1; 2]%nat
  /\ (EvalNut [Sample.batch0] Sample.keras_net [1; 2]%nat Sample.name_of None
        (-1) Sample.w0).2
     = (Ok (Many [1; 2]%nat), Sample.keras_net, Sample.w0).
Proof.
  apply (EvalNut_returns_value_or_tuple [Sample.batch0] Sample.keras_net
           Sample.first_input [1; 2]%nat Sample.name_of None (-1)
           Sample.w0 Sample.w0 Sample.target_rows0 Sample.prediction_rows0
           (Sample.matrix 2 1 [0; 1]) (Sample.matrix 2 2 [1; 2; 3; 4])
           [1; 2]%nat); reflexivity.
Defined.

(** ** [print_layers] *)

Lemma print_each_layer (ls : list layer) :
  forall (w : world),
    let w' := foldl (fun w ly => print (class_name ly) (print rule w)) w ls in
    stdout w' = stdout w ++ flat_map (fun ly => [rule; class_name ly]) ls
    /\ layers w' = layers w /\ files w' = files w
    /\ save_calls w' = save_calls w.
Proof.
  induction ls as [| ly ls IH]; intros w; simpl.
  - rewrite app_nil_r. auto.
  - destruct (IH (print (class_name ly) (print rule w))) as (Hout & Hl & Hf & Hs).
    rewrite Hout, Hl, Hf, Hs. unfold print. simpl.
    rewrite <- !app_assoc. auto.
Qed.

(** X14: [print_layers] of a Lasagne wrapper prints, for every layer with
    weights from the output layer down, a rule of 80 underscores and the
    class name of the layer, after what is on the console already; it
    changes neither the model nor any file. *)
Theorem print_layers_lasagne (self : Network) (w : world)
  (train_fn val_fn pred_fn : batchfn) :
  cls self = LasagneNetwork train_fn val_fn pred_fn ->
  let out := print_layers self w in
  returned out = Ok tt
  /\ stdout (world_after out)
     = stdout w ++ flat_map (fun ly => [rule; class_name ly]) (layers w)
  /\ String.length rule = 80%nat
  /\ layers (world_after out) = layers w
  /\ files (world_after out) = files w.
Proof.
  intros Hcls out. unfold out, print_layers, mbind, get_self, get_world, put_world.
  rewrite Hcls. unfold returned, world_after, _weight_layers. simpl.
  destruct (print_each_layer (layers w) w) as (Hout & Hl & Hf & _).
  split; [reflexivity |]. split; [exact Hout |]. split; [reflexivity |].
  split; [exact Hl | exact Hf].
Qed.

Lemma print_layers_lasagne_witness :
  let self := LasagneNetwork_init Sample.first_input Sample.first_input
                Sample.first_input None in
  let out := print_layers self Sample.w0 in
  returned out = Ok tt
  /\ stdout (world_after out)
     = stdout Sample.w0
       ++ flat_map (fun ly => [rule; class_name ly]) (layers Sample.w0)
  /\ String.length rule = 80%nat
  /\ layers (world_after out) = layers Sample.w0
  /\ files (world_after out) = files Sample.w0.
Proof.
  apply (print_layers_lasagne
           (LasagneNetwork_init Sample.first_input Sample.first_input
              Sample.first_input None)
           Sample.w0 Sample.first_input Sample.first_input Sample.first_input).
  reflexivity.
Defined.

End PipelineFacts.
